(** * llamajump: a streaming reverse proxy in front of a llama.cpp server

    Shallow embedding of [main.py] (the Flask application) and the
    properties of its stream classifier and of its two forwarding paths.

    Conventions of the embedding.
    - Python [str] and [bytes] are both [string], a [str] being held as
      its UTF-8 bytes, so [bytes.decode] either raises or hands the same
      bytes back; [str.lower] acts on the letters A-Z (the only characters
      whose lower-case form occurs in the literals the program compares
      against).
    - A Python [dict] and a header list are association lists in insertion
      order; [dict_set] overwrites in place as Python does.
    - The Flask request object is a record of the attributes the program
      reads; the upstream server, the JSON decoder, the clock and the
      configured base address are parameters of the development.
    - Effects are explicit: a view runs in the monad [M], which records the
      log lines and the upstream calls it makes and may raise; a generator
      is the finite sequence of its yields and effects followed by a normal
      return or an uncaught exception. *)

From Stdlib Require Import String Ascii List Bool Arith Lia ZArith.
From Stdlib Require Import Floats.SpecFloat Numbers.DecimalString.
Import ListNotations.
Open Scope list_scope.
Open Scope string_scope.

(* ------------------------------------------------------------------ *)
(** ** Python strings *)

Module Str.

Definition is_upper (c : ascii) : bool :=
  Nat.leb 65 (nat_of_ascii c) && Nat.leb (nat_of_ascii c) 90.

Definition lower_ascii (c : ascii) : ascii :=
  if is_upper c then ascii_of_nat (nat_of_ascii c + 32) else c.

(** [s.lower()] *)
Fixpoint lower (s : string) : string :=
  match s with
  | EmptyString => EmptyString
  | String c s' => String (lower_ascii c) (lower s')
  end.

(** [s.startswith(p)] *)
Fixpoint startswith (p s : string) : bool :=
  match p, s with
  | EmptyString, _ => true
  | String a p', String b s' => Ascii.eqb a b && startswith p' s'
  | String _ _, EmptyString => false
  end.

(** [needle in hay] on strings *)
Fixpoint contains (needle hay : string) : bool :=
  startswith needle hay ||
  match hay with
  | EmptyString => false
  | String _ hay' => contains needle hay'
  end.

(** [x in [a, b, ...]] on a list of strings *)
Definition in_list (x : string) (l : list string) : bool :=
  existsb (String.eqb x) l.

(** truth value of a [str] or [bytes] object *)
Definition nonempty (s : string) : bool :=
  match s with
  | EmptyString => false
  | String _ _ => true
  end.

(** [str(n)] for a non-negative [int] *)
Definition of_nat (n : nat) : string :=
  NilEmpty.string_of_uint (Nat.to_uint n).

(** the concatenation of a list of chunks *)
Definition join (l : list string) : string :=
  fold_right String.append EmptyString l.

End Str.

(* ------------------------------------------------------------------ *)
(** ** Python values that a JSON document decodes to *)

#[warnings="-register-all"]
Inductive pyval : Type :=
| PNone
| PBool (b : bool)
| PInt (z : Z)
| PFloat (f : spec_float)
| PStr (s : string)
| PList (l : list pyval)
| PDict (d : list (string * pyval)).

(** [bool(v)] *)
Definition truthy (v : pyval) : bool :=
  match v with
  | PNone => false
  | PBool b => b
  | PInt z => negb (Z.eqb z 0)
  | PFloat (S754_zero _) => false
  | PFloat _ => true
  | PStr s => Str.nonempty s
  | PList [] => false
  | PList (_ :: _) => true
  | PDict [] => false
  | PDict (_ :: _) => true
  end.

Section Dict.
Context {V : Type}.

(** [d.get(k, default)] *)
Fixpoint dict_get (d : list (string * V)) (k : string) (default : V) : V :=
  match d with
  | [] => default
  | (k', v) :: d' => if String.eqb k' k then v else dict_get d' k default
  end.

(** [d[k] = v]: the value of an existing key is replaced where the key
    stands, a new key goes to the end. *)
Fixpoint dict_set (d : list (string * V)) (k : string) (v : V)
  : list (string * V) :=
  match d with
  | [] => [(k, v)]
  | (k', v') :: d' =>
      if String.eqb k' k then (k', v) :: d' else (k', v') :: dict_set d' k v
  end.
End Dict.

(* ------------------------------------------------------------------ *)
(** ** Headers and query arguments *)

Definition header : Type := (string * string)%type.

(** [headers.get(name, default)]: header names compare case-insensitively,
    the first match wins. *)
Fixpoint headers_get (hs : list header) (name default : string) : string :=
  match hs with
  | [] => default
  | (k, v) :: hs' =>
      if String.eqb (Str.lower k) (Str.lower name) then v
      else headers_get hs' name default
  end.

(** [request.args.get(name, default)]: the first value of the key. *)
Definition args_get (args : list (string * string)) (name default : string)
  : string := dict_get args name default.

(** The header names the proxy never sends on to the upstream. *)
Definition request_excluded : list string :=
  ["host"; "connection"; "transfer-encoding"].

(** [excluded_headers] of both forwarding paths. *)
Definition excluded_headers : list string :=
  ["content-encoding"; "content-length"; "transfer-encoding"; "connection"].

(** [key.lower() not in names] *)
Definition not_in_lower (names : list string) (kv : header) : bool :=
  negb (Str.in_list (Str.lower (fst kv)) names).

(* ------------------------------------------------------------------ *)
(** ** Exceptions

    The classes the handlers of the program tell apart, as the [requests]
    library arranges them: [ConnectTimeout] derives from both
    [ConnectionError] and [Timeout], [ReadTimeout] from [Timeout] only.
    [BadRequest] is what Flask's [get_json] raises on a body it cannot
    decode, [UnicodeDecodeError] what [bytes.decode] raises on bytes that
    are not UTF-8. *)

Inductive exn_class : Type :=
| ConnectionError
| ConnectTimeout
| ReadTimeout
| Timeout
| ChunkedEncodingError
| BadRequest
| UnicodeDecodeError
| OtherException.

Record exn : Type := mkExn {
  exn_class_of : exn_class;
  exn_str : string          (* str(e) *)
}.

(** [isinstance(e, requests.exceptions.ConnectionError)] *)
Definition is_ConnectionError (e : exn) : bool :=
  match exn_class_of e with
  | ConnectionError | ConnectTimeout => true
  | _ => false
  end.

(** [isinstance(e, requests.exceptions.Timeout)] *)
Definition is_Timeout (e : exn) : bool :=
  match exn_class_of e with
  | ConnectTimeout | ReadTimeout | Timeout => true
  | _ => false
  end.

(* ------------------------------------------------------------------ *)
(** ** The request, the upstream call and the upstream response *)

(** The attributes of [flask.request] that the program reads. *)
Record request : Type := mkRequest {
  method : string;
  url : string;
  query_string : string;             (* raw, as received *)
  args : list (string * string);     (* the parsed query: each key with
                                        its first value *)
  headers : list header;
  is_json : bool;                    (* the Content-Type is a JSON one *)
  data : string                      (* get_data() *)
}.

(** The keyword arguments of one [requests.request(...)] call. *)
Record call : Type := mkCall {
  call_method : string;
  call_url : string;
  call_headers : list header;
  call_data : string;
  call_params : list (string * string);
  call_stream : bool;
  call_allow_redirects : bool;
  call_timeout : option nat * option nat   (* (connect, read) *)
}.

(** What [resp.iter_content(...)] delivers: the chunks read, then either
    the end of the body or an exception. *)
Record body_iter : Type := mkIter {
  chunks : list string;
  failure : option exn
}.

Record response : Type := mkResponse {
  status_code : nat;
  reason : string;
  resp_headers : list header;        (* resp.headers.items() *)
  content : string;                  (* resp.content *)
  iter_content : body_iter
}.

(* ------------------------------------------------------------------ *)
(** ** Effects *)

Inductive level : Type := INFO | ERROR.

Inductive event : Type :=
| Log (lvl : level) (msg : string)
| Upstream (c : call).

Inductive res (A : Type) : Type :=
| Ok (a : A)
| Raise (e : exn).
Arguments Ok {A} a.
Arguments Raise {A} e.

(** A computation extends the trace of events and returns or raises. *)
Definition M (A : Type) : Type := list event -> res A * list event.

Definition ret {A} (a : A) : M A := fun tr => (Ok a, tr).

Definition raise {A} (e : exn) : M A := fun tr => (Raise e, tr).

Definition bind {A B} (m : M A) (f : A -> M B) : M B :=
  fun tr =>
    match m tr with
    | (Ok a, tr') => f a tr'
    | (Raise e, tr') => (Raise e, tr')
    end.

(** [try: m  except Exception as e: h e] *)
Definition try_except {A} (m : M A) (h : exn -> M A) : M A :=
  fun tr =>
    match m tr with
    | (Ok a, tr') => (Ok a, tr')
    | (Raise e, tr') => h e tr'
    end.

Definition emit (ev : event) : M unit := fun tr => (Ok tt, (tr ++ [ev])%list).

Definition logger_info (msg : string) : M unit := emit (Log INFO msg).
Definition logger_error (msg : string) : M unit := emit (Log ERROR msg).

Declare Scope py_scope.
Delimit Scope py_scope with py.
Notation "x <- m ;; k" := (bind m (fun x => k))
  (at level 61, m at next level, right associativity) : py_scope.
Notation "m ;; k" := (bind m (fun _ => k))
  (at level 61, right associativity) : py_scope.

(** List append, where [++] is taken by strings. *)
Infix "+++" := (@app _) (at level 60, right associativity).

(** The upstream calls recorded in a trace, in order. *)
Fixpoint upstream_calls (tr : list event) : list call :=
  match tr with
  | [] => []
  | Upstream c :: tr' => c :: upstream_calls tr'
  | Log _ _ :: tr' => upstream_calls tr'
  end.

(** The ERROR log lines of a trace, in order. *)
Fixpoint error_lines (tr : list event) : list string :=
  match tr with
  | [] => []
  | Log ERROR msg :: tr' => msg :: error_lines tr'
  | _ :: tr' => error_lines tr'
  end.

(* ------------------------------------------------------------------ *)
(** ** Generators

    The run of a generator: what it yields and what it does, in order,
    until it returns or lets an exception escape. *)

Inductive gen : Type :=
| GYield (item : string) (k : gen)
| GDo (ev : event) (k : gen)
| GReturn
| GRaise (e : exn).

(** The items the consumer of the generator receives. *)
Fixpoint gen_items (g : gen) : list string :=
  match g with
  | GYield y k => y :: gen_items k
  | GDo _ k => gen_items k
  | GReturn | GRaise _ => []
  end.

Fixpoint gen_events (g : gen) : list event :=
  match g with
  | GYield _ k => gen_events k
  | GDo ev k => ev :: gen_events k
  | GReturn | GRaise _ => []
  end.

(** [None] when the generator returns, [Some e] when [e] escapes it. *)
Fixpoint gen_end (g : gen) : option exn :=
  match g with
  | GYield _ k | GDo _ k => gen_end k
  | GReturn => None
  | GRaise e => Some e
  end.

(** A [try] block around the body of a generator. *)
Fixpoint gen_try (g : gen) (h : exn -> gen) : gen :=
  match g with
  | GYield y k => GYield y (gen_try k h)
  | GDo ev k => GDo ev (gen_try k h)
  | GReturn => GReturn
  | GRaise e => h e
  end.

(* ------------------------------------------------------------------ *)
(** ** What a view hands back to Flask *)

Inductive body : Type :=
| BodyBytes (b : string)
| BodyStream (g : gen).

Inductive view_result : Type :=
| Response (response : body) (status : nat) (headers : list header)
    (mimetype : option string)
| JsonStatus (payload : list (string * string)) (status : nat).
    (* (jsonify({...}), status) *)

(* ------------------------------------------------------------------ *)
(** ** UTF-8

    [bytes.decode()] decodes UTF-8 strictly: it accepts the well-formed
    byte sequences of the Unicode standard (no overlong forms, no
    surrogates, nothing above U+10FFFF) and raises on any other byte.  A
    [str] is modelled by its UTF-8 bytes, so decoding a valid [bytes]
    object gives the same [string] back. *)

Module Utf8.

Definition in_range (lo hi : nat) (c : ascii) : bool :=
  Nat.leb lo (nat_of_ascii c) && Nat.leb (nat_of_ascii c) hi.

(** A continuation byte, 80..BF. *)
Definition cont (c : ascii) : bool := in_range 128 191 c.

(** The second byte of a three-byte sequence: A0..BF after E0, 80..9F
    after ED, a continuation byte otherwise. *)
Definition second_of_3 (c0 c1 : ascii) : bool :=
  if Nat.eqb (nat_of_ascii c0) 224 then in_range 160 191 c1
  else if Nat.eqb (nat_of_ascii c0) 237 then in_range 128 159 c1
  else cont c1.

(** The second byte of a four-byte sequence: 90..BF after F0, 80..8F
    after F4, a continuation byte otherwise. *)
Definition second_of_4 (c0 c1 : ascii) : bool :=
  if Nat.eqb (nat_of_ascii c0) 240 then in_range 144 191 c1
  else if Nat.eqb (nat_of_ascii c0) 244 then in_range 128 143 c1
  else cont c1.

Fixpoint valid (s : string) : bool :=
  match s with
  | EmptyString => true
  | String c0 s1 =>
      if in_range 0 127 c0 then valid s1
      else
        match s1 with
        | EmptyString => false
        | String c1 s2 =>
            if in_range 194 223 c0 then cont c1 && valid s2
            else
              match s2 with
              | EmptyString => false
              | String c2 s3 =>
                  if in_range 224 239 c0
                  then second_of_3 c0 c1 && cont c2 && valid s3
                  else
                    match s3 with
                    | EmptyString => false
                    | String c3 s4 =>
                        in_range 240 244 c0 && second_of_4 c0 c1
                        && cont c2 && cont c3 && valid s4
                    end
              end
        end
  end.

End Utf8.

(* ------------------------------------------------------------------ *)
(** ** A reference JSON decoder

    The program decodes the body with Flask's [get_json]; the development
    is parametric in that decoder.  [Json.loads] is a decoder for the
    fragment of JSON without escapes in strings and without fractional or
    exponent parts in numbers (such texts are outside the fragment and
    are not used below); it serves to run the program on concrete
    requests.  [None] stands for a decoding error. *)

Module Json.

Definition dquote : ascii := "034".

Definition is_ws (c : ascii) : bool :=
  Ascii.eqb c " " || Ascii.eqb c "009" || Ascii.eqb c "010" || Ascii.eqb c "013".

Fixpoint skip_ws (s : string) : string :=
  match s with
  | String c s' => if is_ws c then skip_ws s' else s
  | EmptyString => EmptyString
  end.

Definition digit_of (c : ascii) : option Z :=
  let n := nat_of_ascii c in
  if Nat.leb 48 n && Nat.leb n 57 then Some (Z.of_nat (n - 48)) else None.

(** The characters of a string literal after its opening quote. *)
Fixpoint scan_string (s : string) : option (string * string) :=
  match s with
  | EmptyString => None
  | String c s' =>
      if Ascii.eqb c dquote then Some (EmptyString, s')
      else if Ascii.eqb c "\" || Nat.ltb (nat_of_ascii c) 32 then None
      else match scan_string s' with
           | Some (b, rest) => Some (String c b, rest)
           | None => None
           end
  end.

Fixpoint scan_digits (acc : Z) (s : string) : Z * string :=
  match s with
  | String c s' =>
      match digit_of c with
      | Some d => scan_digits (10 * acc + d)%Z s'
      | None => (acc, s)
      end
  | EmptyString => (acc, s)
  end.

(** An integer literal: [0] or a non-zero digit followed by digits. *)
Definition scan_int (s : string) : option (Z * string) :=
  match s with
  | String c s' =>
      match digit_of c with
      | Some 0%Z => Some (0%Z, s')
      | Some d => Some (scan_digits d s')
      | None => None
      end
  | EmptyString => None
  end.

Definition integral (r : Z * string) : option (pyval * string) :=
  match snd r with
  | String "." _ | String "e" _ | String "E" _ => None
  | _ => Some (PInt (fst r), snd r)
  end.

Definition scan_number (s : string) : option (pyval * string) :=
  match s with
  | String "-" s' =>
      match scan_int s' with
      | Some (z, rest) => integral ((- z)%Z, rest)
      | None => None
      end
  | _ =>
      match scan_int s with
      | Some r => integral r
      | None => None
      end
  end.

Definition after (p s : string) : string :=
  substring (String.length p) (String.length s - String.length p) s.

Fixpoint parse_value (fuel : nat) (s : string) {struct fuel}
  : option (pyval * string) :=
  match fuel with
  | O => None
  | S fuel' =>
      match skip_ws s with
      | EmptyString => None
      | String c rest as s0 =>
          if Ascii.eqb c "{" then
            match skip_ws rest with
            | String "}" rest' => Some (PDict [], rest')
            | _ => parse_members fuel' rest []
            end
          else if Ascii.eqb c "[" then
            match skip_ws rest with
            | String "]" rest' => Some (PList [], rest')
            | _ => parse_elements fuel' rest []
            end
          else if Ascii.eqb c dquote then
            match scan_string rest with
            | Some (b, rest') => Some (PStr b, rest')
            | None => None
            end
          else if Str.startswith "null" s0 then Some (PNone, after "null" s0)
          else if Str.startswith "true" s0 then
            Some (PBool true, after "true" s0)
          else if Str.startswith "false" s0 then
            Some (PBool false, after "false" s0)
          else scan_number s0
      end
  end

with parse_elements (fuel : nat) (s : string) (acc : list pyval)
  {struct fuel} : option (pyval * string) :=
  match fuel with
  | O => None
  | S fuel' =>
      match parse_value fuel' s with
      | Some (v, rest) =>
          match skip_ws rest with
          | String "," rest' => parse_elements fuel' rest' (acc ++ [v])%list
          | String "]" rest' => Some (PList (acc ++ [v])%list, rest')
          | _ => None
          end
      | None => None
      end
  end

with parse_members (fuel : nat) (s : string) (acc : list (string * pyval))
  {struct fuel} : option (pyval * string) :=
  match fuel with
  | O => None
  | S fuel' =>
      match skip_ws s with
      | String c rest =>
          if Ascii.eqb c dquote then
            match scan_string rest with
            | Some (key, rest1) =>
                match skip_ws rest1 with
                | String ":" rest2 =>
                    match parse_value fuel' rest2 with
                    | Some (v, rest3) =>
                        match skip_ws rest3 with
                        | String "," rest4 =>
                            parse_members fuel' rest4 (dict_set acc key v)
                        | String "}" rest4 =>
                            Some (PDict (dict_set acc key v), rest4)
                        | _ => None
                        end
                    | None => None
                    end
                | _ => None
                end
            | None => None
            end
          else None
      | EmptyString => None
      end
  end.

Definition loads (s : string) : option pyval :=
  match parse_value (2 * String.length s + 2) s with
  | Some (v, rest) =>
      match skip_ws rest with
      | EmptyString => Some v
      | String _ _ => None
      end
  | None => None
  end.

(** A quoted JSON string literal, to write documents down. *)
Definition q (s : string) : string :=
  String dquote s ++ String dquote EmptyString.

End Json.

Import Json.

(* ------------------------------------------------------------------ *)
(** ** The URL that [requests] sends

    [requests] encodes the [params] argument of a call and appends it to
    the query that the [url] argument already carries ([prepare_url]);
    [urlencode] is Python's, with [quote_plus].  The re-quoting that
    [requests] applies to the url itself is left out. *)

Module Url.

Definition is_unreserved (c : ascii) : bool :=
  let n := nat_of_ascii c in
  (Nat.leb 48 n && Nat.leb n 57) || (Nat.leb 65 n && Nat.leb n 90)
  || (Nat.leb 97 n && Nat.leb n 122)
  || Ascii.eqb c "_" || Ascii.eqb c "." || Ascii.eqb c "-" || Ascii.eqb c "~".

Definition hex_digit (n : nat) : ascii :=
  if Nat.ltb n 10 then ascii_of_nat (48 + n) else ascii_of_nat (55 + n).

Fixpoint quote_plus (s : string) : string :=
  match s with
  | EmptyString => EmptyString
  | String c s' =>
      if is_unreserved c then String c (quote_plus s')
      else if Ascii.eqb c " " then String "+" (quote_plus s')
      else String "%"
             (String (hex_digit (nat_of_ascii c / 16))
                (String (hex_digit (nat_of_ascii c mod 16)) (quote_plus s')))
  end.

Definition urlencode (params : list (string * string)) : string :=
  String.concat "&"
    (map (fun kv => quote_plus (fst kv) ++ "=" ++ quote_plus (snd kv)) params).

Definition prepared_url (c : call) : string :=
  let enc := urlencode (call_params c) in
  if Str.nonempty enc then
    if Str.contains "?" (call_url c)
    then call_url c ++ "&" ++ enc
    else call_url c ++ "?" ++ enc
  else call_url c.

End Url.

(* ------------------------------------------------------------------ *)
(** ** Concrete requests and upstreams, to run the program on *)

Module Sample.

Definition base : string := "http://localhost:9997".
Definition clock : string := "2024-05-01T12:00:00".

(** [repr] on strings free of quotes, backslashes and control characters. *)
Definition quote (s : string) : string := "'" ++ s ++ "'".

(** [POST /v1/completions] with a JSON body asking for a stream. *)
Definition json_stream_request : request :=
  mkRequest "POST" "http://localhost:8080/v1/completions" "" []
    [("Host", "localhost:8080"); ("Content-Type", "application/json")]
    true
    ("{" ++ q "prompt" ++ ": " ++ q "hi" ++ ", " ++ q "stream" ++ ": true}").

(** The same body sent without a Content-Type header. *)
Definition untyped_stream_request : request :=
  mkRequest "POST" "http://localhost:8080/v1/completions" "" []
    [("Host", "localhost:8080")]
    false
    ("{" ++ q "prompt" ++ ": " ++ q "hi" ++ ", " ++ q "stream" ++ ": true}").

(** A body announced as JSON that is cut off after the first key. *)
Definition malformed_request : request :=
  mkRequest "POST" "http://localhost:8080/v1/completions" "" []
    [("Host", "localhost:8080"); ("Content-Type", "application/json")]
    true
    ("{" ++ q "stream").

(** [GET /v1/models?a=1] *)
Definition plain_request : request :=
  mkRequest "GET" "http://localhost:8080/v1/models?a=1" "a=1" [("a", "1")]
    [("Host", "localhost:8080"); ("Connection", "keep-alive");
     ("Accept", "*/*"); ("X-Trace", "7")]
    false
    "".

(** [GET /v1/events] asking for server-sent events. *)
Definition sse_request : request :=
  mkRequest "GET" "http://localhost:8080/v1/events" "" []
    [("Host", "localhost:8080"); ("Accept", "text/event-stream")]
    false
    "".

Definition up_hello : call -> res response :=
  fun _ => Ok (mkResponse 200 "OK"
                 [("X-Test", "1"); ("Content-Length", "5");
                  ("Connection", "close")]
                 "hello" (mkIter ["hello"] None)).

Definition up_refused : call -> res response :=
  fun _ => Raise (mkExn ConnectionError "Connection refused").

Definition up_connect_timeout : call -> res response :=
  fun _ => Raise (mkExn ConnectTimeout "Connection to localhost timed out").

Definition up_read_timeout : call -> res response :=
  fun _ => Raise (mkExn ReadTimeout "Read timed out").

Definition up_not_found : call -> res response :=
  fun _ => Ok (mkResponse 404 "Not Found"
                 [("Content-Type", "text/plain")]
                 "no such model" (mkIter ["no such model"] None)).

(** The body breaks off after the first chunk. *)
Definition up_broken_stream : call -> res response :=
  fun _ => Ok (mkResponse 200 "OK"
                 [("Content-Type", "text/event-stream")]
                 "" (mkIter ["a"]
                       (Some (mkExn ChunkedEncodingError
                                "Connection broken")))).

(** A stream with an empty chunk in it, sent with caching headers. *)
Definition up_cached : call -> res response :=
  fun _ => Ok (mkResponse 200 "OK"
                 [("Cache-Control", "max-age=3600");
                  ("Content-Type", "text/event-stream");
                  ("Connection", "close")]
                 "" (mkIter ["a"; ""; "b"; "c"] None)).

(** An Accept header that lists the event-stream type among others, with a
    JSON body that asks for no stream. *)
Definition accept_over_body_request : request :=
  mkRequest "POST" "http://localhost:8080/v1/completions" "" []
    [("Host", "localhost:8080"); ("Content-Type", "application/json");
     ("Accept", "text/html, text/event-stream;q=0.9")]
    true
    ("{" ++ q "stream" ++ ": false}").

(** [GET /v1/events?stream=YES] *)
Definition upper_query_request : request :=
  mkRequest "GET" "http://localhost:8080/v1/events?stream=YES" "stream=YES"
    [("stream", "YES")]
    [("Host", "localhost:8080")]
    false
    "".

(** A JSON body whose [stream] entry is the string [false]. *)
Definition string_false_request : request :=
  mkRequest "POST" "http://localhost:8080/v1/completions" "" []
    [("Host", "localhost:8080"); ("Content-Type", "application/json")]
    true
    ("{" ++ q "stream" ++ ": " ++ q "false" ++ "}").

(** A JSON body that is a list around the mapping. *)
Definition list_body_request : request :=
  mkRequest "POST" "http://localhost:8080/v1/completions" "" []
    [("Host", "localhost:8080"); ("Content-Type", "application/json")]
    true
    ("[{" ++ q "stream" ++ ": true}]").

(** A JSON body without a [stream] entry, and no other signal. *)
Definition bare_request : request :=
  mkRequest "POST" "http://localhost:8080/v1/embeddings" "" []
    [("Host", "localhost:8080"); ("Content-Type", "application/json")]
    true
    ("{" ++ q "input" ++ ": " ++ q "hi" ++ "}").

(** Inbound headers with a repeated name and excluded names in odd case. *)
Definition repeated_header_request : request :=
  mkRequest "GET" "http://localhost:8080/v1/models" "" []
    [("X-Tag", "1"); ("HOST", "localhost:8080"); ("X-Tag", "2");
     ("Transfer-Encoding", "chunked"); ("X-Other", "3")]
    false
    "".

(** A streamed answer with framing headers and no Content-Type. *)
Definition up_untyped_stream : call -> res response :=
  fun _ => Ok (mkResponse 200 "OK"
                 [("Content-Length", "3"); ("Transfer-Encoding", "chunked");
                  ("CONNECTION", "close"); ("X-Test", "1")]
                 "" (mkIter ["a"; ""; "b"] None)).

(** A 404 whose body breaks off with a connection error. *)
Definition up_not_found_broken : call -> res response :=
  fun _ => Ok (mkResponse 404 "Not Found"
                 [("Content-Type", "text/plain")]
                 "" (mkIter ["no"; ""; "such"]
                       (Some (mkExn ConnectionError "Connection reset")))).

(** [GET /v1/models?a=%FF] as a server hands it on with the escape
    resolved: the query string holds the byte FF, which is not UTF-8; in
    the parsed query the byte is replaced by U+FFFD. *)
Definition bad_query_request : request :=
  mkRequest "GET" "http://localhost:8080/v1/models?a=%FF"
    (String "a" (String "=" (String (ascii_of_nat 255) EmptyString)))
    [("a", String (ascii_of_nat 239)
             (String (ascii_of_nat 191)
                (String (ascii_of_nat 189) EmptyString)))]
    [("Host", "localhost:8080")]
    false
    "".

End Sample.

(* ------------------------------------------------------------------ *)
(** ** The program *)

Definition nl : string := String "010" EmptyString.

Section Proxy.

(** [LLAMA_SERVER], the configured base address of the upstream. *)
Variable LLAMA_SERVER : string.
(** The JSON decoder behind [request.get_json()]; [None] when it fails. *)
Variable json_loads : string -> option pyval.
(** The upstream as [requests.request] presents it. *)
Variable requests_request : call -> res response.
(** [datetime.now().isoformat()] *)
Variable now : string.
(** [repr] of a [str], as an f-string prints the entries of a dict. *)
Variable py_repr : string -> string.

Local Open Scope py_scope.

(** One [requests.request] call to the upstream, with arguments [c]. *)
Definition do_request (c : call) : M response :=
  fun tr => (requests_request c, (tr ++ [Upstream c])%list).

(** The view [health_check]: [jsonify({...})], with Flask's status 200. *)
Definition health_check : M view_result :=
  ret (JsonStatus [("status", "running"); ("target", LLAMA_SERVER);
                   ("timestamp", now)] 200).

(** [request.get_json()], reached only when [request.is_json] holds. *)
Definition get_json (r : request) : M pyval :=
  match json_loads (data r) with
  | Some v => ret v
  | None => raise (mkExn BadRequest "Failed to decode JSON object")
  end.

Definition is_streaming_request (r : request) : M pyval :=
  let accept_header := headers_get (headers r) "Accept" "" in
  let stream_param := Str.lower (args_get (args r) "stream" "") in
  is_stream_request <-
    (if is_json r then
       try_except
         (data <- get_json r ;;
          match data with
          | PDict d => ret (dict_get d "stream" (PBool false))
          | _ => ret (PBool false)
          end)
         (fun _ => ret (PBool false))
     else ret (PBool false)) ;;
  ret (if Str.contains "text/event-stream" accept_header then PBool true
       else if Str.contains "application/x-ndjson" accept_header
       then PBool true
       else if Str.in_list stream_param ["true"; "1"; "yes"] then PBool true
       else is_stream_request).

(** [f"{d}"] for a dict of strings *)
Definition dict_repr (d : list (string * string)) : string :=
  "{" ++ String.concat ", "
           (map (fun kv => py_repr (fst kv) ++ ": " ++ py_repr (snd kv)) d)
      ++ "}".

(** [f"data: {error_response}\n\n"] *)
Definition sse_error (error message : string) : string :=
  "data: " ++ dict_repr [("error", error); ("message", message)] ++ nl ++ nl.

(** [f"HTTP/1.1 {resp.status_code} {resp.reason}\n"] *)
Definition status_marker (resp : response) : string :=
  "HTTP/1.1 " ++ Str.of_nat (status_code resp) ++ " " ++ reason resp ++ nl.

(** [for chunk in resp.iter_content(...): if chunk: yield chunk] *)
Fixpoint relay_chunks (cs : list string) (fin : option exn) : gen :=
  match cs with
  | [] => match fin with
          | None => GReturn
          | Some e => GRaise e
          end
  | chunk :: cs' =>
      if Str.nonempty chunk then GYield chunk (relay_chunks cs' fin)
      else relay_chunks cs' fin
  end.

(** The arguments of the streaming upstream call. *)
Definition streaming_call (target_url : string) (hdrs : list header)
    (body : string) (r : request) : call :=
  mkCall (method r) target_url hdrs body (args r) true true (Some 10, None).

(** The inner generator [generate] of [proxy_streaming_response]. *)
Definition generate (target_url : string) (hdrs : list header)
    (body : string) (r : request) : gen :=
  gen_try
    (GDo (Upstream (streaming_call target_url hdrs body r))
       match requests_request (streaming_call target_url hdrs body r) with
       | Raise e => GRaise e
       | Ok resp =>
           GDo (Log INFO ("[" ++ now ++ "] Streaming response: "
                          ++ Str.of_nat (status_code resp) ++ " for "
                          ++ method r ++ " " ++ url r))
             (let rest := relay_chunks (chunks (iter_content resp))
                                       (failure (iter_content resp)) in
              if negb (Nat.eqb (status_code resp) 200)
              then GYield (status_marker resp) rest
              else rest)
       end)
    (fun e =>
       if is_ConnectionError e then
         GDo (Log ERROR ("Streaming connection error: Unable to connect to "
                         ++ LLAMA_SERVER))
           (GYield (sse_error "Connection error"
                      ("Unable to connect to llama.cpp server at "
                       ++ LLAMA_SERVER)) GReturn)
       else
         GDo (Log ERROR ("Streaming proxy error: " ++ exn_str e))
           (GYield (sse_error "Streaming error" (exn_str e)) GReturn)).

(** The inner generator [stream_generator]. *)
Definition stream_generator (resp : response) : gen :=
  relay_chunks (chunks (iter_content resp)) (failure (iter_content resp)).

Definition proxy_streaming_response (target_url : string)
    (hdrs : list header) (body : string) (r : request) : M view_result :=
  let generate_ := generate target_url hdrs body r in   (* never used *)
  try_except
    (resp <- do_request (streaming_call target_url hdrs body r) ;;
     let response_headers :=
       filter (not_in_lower excluded_headers) (resp_headers resp) in
     let response_headers :=
       (response_headers ++ [("Cache-Control", "no-cache")])%list in
     let response_headers :=
       (response_headers ++ [("Connection", "keep-alive")])%list in
     ret (Response (BodyStream (stream_generator resp))
            (status_code resp)
            response_headers
            (Some (headers_get (resp_headers resp)
                     "content-type" "text/plain"))))
    (fun e =>
       logger_error ("Error setting up streaming: " ++ exn_str e) ;;
       ret (JsonStatus [("error", "Streaming setup error");
                        ("message", exn_str e)] 500)).

(** [b.decode()] *)
Definition decode (b : string) : M string :=
  if Utf8.valid b then ret b
  else raise (mkExn UnicodeDecodeError
                "'utf-8' codec can't decode the bytes").
  (* the text of this exception names the byte and its position; it is
     not modelled, and nothing in the program reads it *)

(** The first lines of [proxy]: [target_url] is the base, a slash and the
    path, then [?] and the decoded query string when there is one. *)
Definition make_target_url (path : string) (r : request) : M string :=
  let target_url := LLAMA_SERVER ++ "/" ++ path in
  if Str.nonempty (query_string r)
  then query <- decode (query_string r) ;;
       ret (target_url ++ "?" ++ query)
  else ret target_url.

(** The value of [target_url] once the query string has been decoded. *)
Definition target_url_of (path : string) (r : request) : string :=
  let target_url := LLAMA_SERVER ++ "/" ++ path in
  if Str.nonempty (query_string r)
  then target_url ++ "?" ++ query_string r
  else target_url.

(** One turn of the loop over the inbound headers:
    [if key.lower() not in [...]: headers[key] = value]. *)
Definition keep_header (hdrs : list header) (kv : header) : list header :=
  if not_in_lower request_excluded kv
  then dict_set hdrs (fst kv) (snd kv)
  else hdrs.

(** The [headers] dict that [proxy] builds from the inbound headers. *)
Definition forward_headers (r : request) : list header :=
  fold_left keep_header (headers r) [].

(** The arguments of the buffered upstream call. *)
Definition buffered_call (target_url : string) (hdrs : list header)
    (body : string) (r : request) : call :=
  mkCall (method r) target_url hdrs body (args r) false false
    (Some 300, Some 300).

Definition proxy (path : string) (r : request) : M view_result :=
  target_url <- make_target_url path r ;;
  logger_info ("[" ++ now ++ "] Proxying: " ++ method r ++ " " ++ url r
               ++ " -> " ++ target_url) ;;
  let hdrs := forward_headers r in
  let body := data r in
  streaming <- is_streaming_request r ;;
  if truthy streaming then
    logger_info ("[" ++ now ++ "] Detected streaming request") ;;
    proxy_streaming_response target_url hdrs body r
  else
    try_except
      (resp <- do_request (buffered_call target_url hdrs body r) ;;
       logger_info ("[" ++ now ++ "] Response: "
                    ++ Str.of_nat (status_code resp) ++ " for "
                    ++ method r ++ " " ++ url r) ;;
       let response_headers :=
         filter (not_in_lower excluded_headers) (resp_headers resp) in
       ret (Response (BodyBytes (content resp)) (status_code resp)
              response_headers None))
      (fun e =>
         if is_ConnectionError e then
           logger_error ("Connection error: Unable to connect to "
                         ++ LLAMA_SERVER) ;;
           ret (JsonStatus
                  [("error", "Connection error");
                   ("message", "Unable to connect to llama.cpp server at "
                               ++ LLAMA_SERVER)] 502)
         else if is_Timeout e then
           logger_error ("Timeout error: Request to " ++ LLAMA_SERVER
                         ++ " timed out") ;;
           ret (JsonStatus
                  [("error", "Timeout error");
                   ("message", "Request to llama.cpp server timed out")]
                  504)
         else
           logger_error ("Proxy error: " ++ exn_str e) ;;
           ret (JsonStatus [("error", "Proxy error");
                            ("message", exn_str e)] 500)).


(* ---------------------------------------------------------------- *)
(** *** The signals of the classifier, as the specification words them *)

(** The [Accept] header contains one of the two streaming media types. *)
Definition accept_signal (r : request) : bool :=
  Str.contains "text/event-stream" (headers_get (headers r) "Accept" "")
  || Str.contains "application/x-ndjson"
       (headers_get (headers r) "Accept" "").

(** The [stream] query parameter is [true], [1] or [yes] in any case. *)
Definition query_signal (r : request) : bool :=
  Str.in_list (Str.lower (args_get (args r) "stream" ""))
    ["true"; "1"; "yes"].

(** The body decodes to a mapping with a truthy [stream] entry. *)
Definition body_signal (r : request) : bool :=
  match json_loads (data r) with
  | Some (PDict d) => truthy (dict_get d "stream" (PBool false))
  | _ => false
  end.

(** What the classifier returns, read off a run on the empty trace. *)
Definition verdict (r : request) : pyval :=
  match fst (is_streaming_request r []) with
  | Ok v => v
  | Raise _ => PBool false
  end.

(** The branch [proxy] takes. *)
Definition wants_stream (r : request) : bool := truthy (verdict r).

(* ---------------------------------------------------------------- *)
(** *** Names for what [proxy] sends and logs *)

(** The upstream call of the buffered path. *)
Definition buffered_request (path : string) (r : request) : call :=
  buffered_call (target_url_of path r) (forward_headers r) (data r) r.

(** The upstream call of the streaming path. *)
Definition streaming_request (path : string) (r : request) : call :=
  streaming_call (target_url_of path r) (forward_headers r) (data r) r.

(** The upstream headers that both paths hand on to the caller. *)
Definition relayed_headers (resp : response) : list header :=
  filter (not_in_lower excluded_headers) (resp_headers resp).

Definition proxying_line (path : string) (r : request) : string :=
  "[" ++ now ++ "] Proxying: " ++ method r ++ " " ++ url r
  ++ " -> " ++ target_url_of path r.

Definition detected_line : string :=
  "[" ++ now ++ "] Detected streaming request".

Definition response_line (r : request) (resp : response) : string :=
  "[" ++ now ++ "] Response: " ++ Str.of_nat (status_code resp)
  ++ " for " ++ method r ++ " " ++ url r.

(** The upstream call that a request leads to. *)
Definition the_call (path : string) (r : request) : call :=
  if wants_stream r then streaming_request path r
  else buffered_request path r.

(** The value of the last header named [k], spelled exactly so. *)
Definition last_value (hs : list header) (k default : string) : string :=
  fold_left (fun acc kv => if String.eqb (fst kv) k then snd kv else acc)
    hs default.

(** The header is named [n], in any letter case. *)
Definition has_name (n : string) (kv : header) : bool :=
  String.eqb (Str.lower (fst kv)) n.

(** The last event that [generate] yields for the exception [e]. *)
Definition generate_error_event (e : exn) : string :=
  if is_ConnectionError e
  then sse_error "Connection error"
         ("Unable to connect to llama.cpp server at " ++ LLAMA_SERVER)
  else sse_error "Streaming error" (exn_str e).

(** The first line that [generate] yields for a response, if any. *)
Definition generate_marker (resp : response) : list string :=
  if Nat.eqb (status_code resp) 200 then [] else [status_marker resp].

(* ---------------------------------------------------------------- *)
(** *** Statements of the specification that the program is tested
    against below *)

(** The classifier decides by the three signals alone, whatever the
    Content-Type of the request. *)
Definition classifies_by_signals (r : request) : Prop :=
  wants_stream r = true <->
  accept_signal r = true \/ query_signal r = true \/ body_signal r = true.

(** A failed connection is reported inside the body stream. *)
Definition connection_failure_in_stream (path : string) (r : request)
  : Prop :=
  forall e tr,
    wants_stream r = true ->
    requests_request (streaming_request path r) = Raise e ->
    is_ConnectionError e = true ->
    exists g st hs mt tr' payload,
      proxy path r tr = (Ok (Response (BodyStream g) st hs mt), tr')
      /\ gen_items g = ["data: " ++ payload ++ nl ++ nl].

(** A non-200 upstream status is announced by a first line of the body. *)
Definition marker_prepended (path : string) (r : request) : Prop :=
  forall resp tr,
    wants_stream r = true ->
    requests_request (streaming_request path r) = Ok resp ->
    status_code resp <> 200 ->
    exists g st hs mt tr' rest,
      proxy path r tr = (Ok (Response (BodyStream g) st hs mt), tr')
      /\ gen_items g = status_marker resp :: rest.

(** A timeout of the buffered call is answered with status 504. *)
Definition timeout_answered_504 (path : string) (r : request) : Prop :=
  forall e tr,
    wants_stream r = false ->
    requests_request (buffered_request path r) = Raise e ->
    is_Timeout e = true ->
    exists payload tr',
      proxy path r tr = (Ok (JsonStatus payload 504), tr').

(* ---------------------------------------------------------------- *)
(** *** Strings and lists *)

Lemma startswith_spec (p s : string) :
  Str.startswith p s = true <-> exists post, s = p ++ post.
Proof.
  revert s; induction p as [|a p IH]; intros s; simpl.
  - split; [intros _; now exists s | reflexivity].
  - destruct s as [|b s].
    + split; [discriminate | intros [post H]; discriminate].
    + rewrite andb_true_iff, Ascii.eqb_eq, IH. split.
      * intros [-> [post ->]]. now exists post.
      * intros [post H]. injection H as -> ->. split; [reflexivity|].
        now exists post.
Qed.

(** [needle in hay] holds exactly when [hay] is [pre ++ needle ++ post]. *)
Lemma contains_spec (needle hay : string) :
  Str.contains needle hay = true <->
  exists pre post, hay = pre ++ needle ++ post.
Proof.
  induction hay as [|c hay IH].
  - simpl. rewrite orb_false_r, startswith_spec. split.
    + intros [post H]. now exists EmptyString, post.
    + intros [pre [post H]]. destruct pre; [now exists post|discriminate].
  - cbn [Str.contains]. rewrite orb_true_iff, startswith_spec, IH. split.
    + intros [[post H] | [pre [post H]]].
      * now exists EmptyString, post.
      * exists (String c pre), post. simpl. now rewrite H.
    + intros [pre [post H]]. destruct pre as [|c' pre]; simpl in H.
      * left. now exists post.
      * right. injection H as _ H. now exists pre, post.
Qed.

Lemma in_list_spec (x : string) (l : list string) :
  Str.in_list x l = true <-> In x l.
Proof.
  unfold Str.in_list. rewrite existsb_exists. split.
  - intros [y [Hy E]]. apply String.eqb_eq in E. now subst.
  - intros H. exists x. split; [assumption | apply String.eqb_refl].
Qed.

Lemma not_in_lower_spec (names : list string) (kv : header) :
  not_in_lower names kv = true <-> ~ In (Str.lower (fst kv)) names.
Proof.
  unfold not_in_lower. rewrite negb_true_iff, <- not_true_iff_false.
  now rewrite in_list_spec.
Qed.

(* ---------------------------------------------------------------- *)
(** *** The stream classifier *)

(** The value the classifier computes, without the plumbing. *)
Lemma is_streaming_request_run (r : request) (tr : list event) :
  is_streaming_request r tr =
  (Ok (if accept_signal r || query_signal r then PBool true
       else if is_json r then
              match json_loads (data r) with
              | Some (PDict d) => dict_get d "stream" (PBool false)
              | _ => PBool false
              end
            else PBool false), tr).
Proof.
  unfold is_streaming_request, accept_signal, query_signal, bind,
    try_except, get_json, ret, raise.
  destruct (Str.contains "text/event-stream" _),
    (Str.contains "application/x-ndjson" _), (Str.in_list _ _),
    (is_json r); try destruct (json_loads (data r)) as [[]|];
    reflexivity.
Qed.

(** The classifier returns a value on every request, raises nothing
    and leaves the trace alone. *)
Lemma is_streaming_request_total (r : request) (tr : list event) :
  is_streaming_request r tr = (Ok (verdict r), tr).
Proof.
  unfold verdict. rewrite (is_streaming_request_run r []).
  apply is_streaming_request_run.
Qed.

Lemma verdict_eq (r : request) :
  verdict r =
  if accept_signal r || query_signal r then PBool true
  else if is_json r then
         match json_loads (data r) with
         | Some (PDict d) => dict_get d "stream" (PBool false)
         | _ => PBool false
         end
       else PBool false.
Proof.
  unfold verdict. now rewrite is_streaming_request_run.
Qed.

(** C3, as the program has it: the classifier answers true exactly when
    the Accept header names a streaming media type, or the [stream] query
    parameter is true/1/yes in any case, or the request is announced as
    JSON by its Content-Type and its body decodes to a mapping whose
    [stream] entry is truthy.  So a JSON-typed body with [stream] set to
    true is classified as streaming, and without an Accept or query
    signal a mapping whose [stream] entry is false or absent is not. *)
Theorem is_streaming_request_iff (r : request) (tr : list event) :
  exists v,
    is_streaming_request r tr = (Ok v, tr)
    /\ (truthy v = true <->
        accept_signal r = true \/ query_signal r = true \/
        (is_json r = true /\
         exists d, json_loads (data r) = Some (PDict d)
                   /\ truthy (dict_get d "stream" (PBool false)) = true))
    /\ (forall d, is_json r = true ->
                  json_loads (data r) = Some (PDict d) ->
                  dict_get d "stream" (PBool false) = PBool true ->
                  truthy v = true)
    /\ (forall d, accept_signal r = false -> query_signal r = false ->
                  json_loads (data r) = Some (PDict d) ->
                  dict_get d "stream" (PBool false) = PBool false ->
                  truthy v = false).
Proof.
  exists (verdict r). split; [apply is_streaming_request_total|].
  rewrite verdict_eq.
  destruct (accept_signal r) eqn:Ha; [|destruct (query_signal r) eqn:Hq];
    cbn [orb truthy].
  - repeat split; auto; discriminate.
  - repeat split; auto; discriminate.
  - destruct (is_json r) eqn:Hj; cbn [truthy].
    + destruct (json_loads (data r)) as [v|] eqn:Hl.
      * split; [|split].
        -- split.
           ++ intros Ht. right; right. split; [reflexivity|].
              destruct v; try discriminate Ht. now exists d.
           ++ intros [H|[H|[_ [d [E Ht]]]]]; try discriminate H.
              injection E as ->. exact Ht.
        -- intros d _ E Hs. injection E as ->. now rewrite Hs.
        -- intros d _ _ E Hs. injection E as ->. now rewrite Hs.
      * split; [|split]; try (intros; discriminate).
        split; [discriminate|].
        intros [H|[H|[_ [d [E _]]]]]; discriminate.
    + split; [|split].
      * split; [discriminate|].
        intros [H|[H|[H _]]]; discriminate.
      * intros; discriminate.
      * reflexivity.
Qed.

(** C4: when the body does not decode, the classifier raises nothing and
    answers by the Accept header and the [stream] query parameter
    alone. *)
Theorem is_streaming_request_malformed_body (r : request)
    (tr : list event) :
  json_loads (data r) = None ->
  is_streaming_request r tr =
  (Ok (PBool (accept_signal r || query_signal r)), tr).
Proof.
  intros Hl. rewrite is_streaming_request_run, Hl.
  destruct (accept_signal r || query_signal r), (is_json r); reflexivity.
Qed.


(* ---------------------------------------------------------------- *)
(** *** Dicts, header lists and generators *)

Lemma dict_set_In {V} (d : list (string * V)) (k : string) (v : V)
    (x : string * V) :
  In x (dict_set d k v) -> In x d \/ x = (k, v).
Proof.
  induction d as [|[k' v'] d IH]; simpl.
  - intros [<-|[]]. now right.
  - destruct (String.eqb k' k) eqn:E; simpl.
    + apply String.eqb_eq in E. subst k'. intros [<-|H]; auto.
    + intros [<-|H]; auto. destruct (IH H); auto.
Qed.

Lemma dict_set_fresh {V} (d : list (string * V)) (k : string) (v : V) :
  ~ In k (map fst d) -> dict_set d k v = (d ++ [(k, v)])%list.
Proof.
  induction d as [|[k' v'] d IH]; simpl; [reflexivity|].
  intros H. destruct (String.eqb k' k) eqn:E.
  - apply String.eqb_eq in E. tauto.
  - rewrite IH; [reflexivity | tauto].
Qed.

Lemma fold_keep_In (hs acc : list header) (x : header) :
  In x (fold_left keep_header hs acc) ->
  In x acc \/ (In x hs /\ not_in_lower request_excluded x = true).
Proof.
  revert acc; induction hs as [|kv hs IH]; intros acc; simpl; [auto|].
  intros H. destruct (IH _ H) as [Hacc|[Hin Hp]]; [|now auto].
  unfold keep_header in Hacc.
  destruct (not_in_lower request_excluded kv) eqn:Hk; [|now auto].
  destruct (dict_set_In _ _ _ _ Hacc) as [? | ->]; [now auto|].
  right. rewrite <- surjective_pairing. auto.
Qed.

Lemma fold_keep_nodup (hs acc : list header) :
  NoDup (map fst acc ++ map fst hs) ->
  fold_left keep_header hs acc =
  (acc ++ filter (not_in_lower request_excluded) hs)%list.
Proof.
  revert acc; induction hs as [|[k v] hs IH]; intros acc; simpl.
  - intros _. now rewrite app_nil_r.
  - intros H. unfold keep_header at 2.
    destruct (not_in_lower request_excluded (k, v)) eqn:Hk.
    + cbn [fst snd]. rewrite dict_set_fresh.
      * rewrite IH; [now rewrite <- app_assoc|].
        now rewrite map_app, <- app_assoc.
      * apply NoDup_remove_2 in H. intros Hin. apply H.
        apply in_or_app. now left.
    + apply IH. now apply NoDup_remove_1 in H.
Qed.

(** No excluded header name gets through, and nothing is invented. *)
Lemma forward_headers_In (r : request) (k v : string) :
  In (k, v) (forward_headers r) ->
  In (k, v) (headers r) /\ ~ In (Str.lower k) request_excluded.
Proof.
  intros H. destruct (fold_keep_In _ _ _ H) as [[]|[Hin Hp]].
  split; [assumption|]. now apply not_in_lower_spec in Hp.
Qed.

(** With header names unique, as in a header mapping, the forwarded
    headers are the inbound ones without the excluded names, in order. *)
Lemma forward_headers_filter (r : request) :
  NoDup (map fst (headers r)) ->
  forward_headers r = filter (not_in_lower request_excluded) (headers r).
Proof.
  intros H. unfold forward_headers. now rewrite fold_keep_nodup.
Qed.

Lemma relayed_headers_In (resp : response) (k v : string) :
  In (k, v) (relayed_headers resp) <->
  In (k, v) (resp_headers resp) /\ ~ In (Str.lower k) excluded_headers.
Proof.
  unfold relayed_headers. rewrite filter_In.
  now rewrite (not_in_lower_spec excluded_headers (k, v)).
Qed.

Lemma relay_chunks_items (cs : list string) (fin : option exn) :
  gen_items (relay_chunks cs fin) = filter Str.nonempty cs.
Proof.
  induction cs as [|c cs IH]; simpl.
  - now destruct fin.
  - destruct (Str.nonempty c); simpl; now rewrite IH.
Qed.

Lemma relay_chunks_end (cs : list string) (fin : option exn) :
  gen_end (relay_chunks cs fin) = fin.
Proof.
  induction cs as [|c cs IH]; simpl.
  - now destruct fin.
  - now destruct (Str.nonempty c).
Qed.

Lemma relay_chunks_events (cs : list string) (fin : option exn) :
  gen_events (relay_chunks cs fin) = [].
Proof.
  induction cs as [|c cs IH]; simpl.
  - now destruct fin.
  - now destruct (Str.nonempty c).
Qed.

(** Dropping the empty chunks does not change the bytes. *)
Lemma join_filter_nonempty (cs : list string) :
  Str.join (filter Str.nonempty cs) = Str.join cs.
Proof.
  induction cs as [|c cs IH]; simpl; [reflexivity|].
  destruct c; simpl; [exact IH | now rewrite IH].
Qed.

(** A failure of the upstream iterator escapes [stream_generator]: the
    generator logs nothing and yields nothing but the chunks read. *)
Lemma stream_generator_failure (resp : response) (e : exn) :
  failure (iter_content resp) = Some e ->
  gen_end (stream_generator resp) = Some e
  /\ gen_events (stream_generator resp) = []
  /\ gen_items (stream_generator resp)
     = filter Str.nonempty (chunks (iter_content resp)).
Proof.
  intros H. unfold stream_generator.
  now rewrite relay_chunks_end, relay_chunks_events, relay_chunks_items.
Qed.

Lemma gen_try_end (g : gen) (h : exn -> gen) :
  (forall e, gen_end (h e) = None) -> gen_end (gen_try g h) = None.
Proof.
  intros Hh. induction g as [y k IH|ev k IH| |e]; simpl; auto.
Qed.

(** No exception escapes [generate]: its handlers turn each one into a
    last event of the stream. *)
Lemma generate_never_raises (target_url : string) (hdrs : list header)
    (body : string) (r : request) :
  gen_end (generate target_url hdrs body r) = None.
Proof.
  unfold generate. apply gen_try_end.
  intros e. now destruct (is_ConnectionError e).
Qed.

(* ---------------------------------------------------------------- *)
(** *** The two branches of [proxy] *)

(** With a query string that decodes, [target_url] is [target_url_of]. *)
Lemma make_target_url_ok (path : string) (r : request) (tr : list event) :
  Utf8.valid (query_string r) = true ->
  make_target_url path r tr = (Ok (target_url_of path r), tr).
Proof.
  intros Hq. unfold make_target_url, target_url_of, decode, bind, ret.
  destruct (Str.nonempty (query_string r)); [|reflexivity].
  now rewrite Hq.
Qed.

(** A query string that is not UTF-8 stops [proxy] at once: the exception
    of [decode] escapes before anything is logged or sent. *)
Lemma proxy_bad_query (path : string) (r : request) (tr : list event) :
  Utf8.valid (query_string r) = false ->
  exists e, proxy path r tr = (Raise e, tr)
            /\ exn_class_of e = UnicodeDecodeError.
Proof.
  intros Hq. unfold proxy, make_target_url, decode, bind, raise.
  destruct (query_string r) as [|c q] eqn:E; [discriminate Hq|].
  cbn [Str.nonempty]. rewrite Hq. eauto.
Qed.

Lemma proxy_streaming_branch (path : string) (r : request)
    (tr : list event) :
  Utf8.valid (query_string r) = true ->
  wants_stream r = true ->
  proxy path r tr =
  proxy_streaming_response (target_url_of path r) (forward_headers r)
    (data r) r
    (tr +++ [Log INFO (proxying_line path r); Log INFO detected_line]).
Proof.
  unfold wants_stream. intros Hq Hs.
  unfold proxy, bind. rewrite (make_target_url_ok _ _ _ Hq).
  unfold logger_info, emit.
  rewrite is_streaming_request_total, Hs.
  now rewrite <- app_assoc.
Qed.

Lemma proxy_streaming_ok (path : string) (r : request) (tr : list event)
    (resp : response) :
  Utf8.valid (query_string r) = true ->
  wants_stream r = true ->
  requests_request (streaming_request path r) = Ok resp ->
  proxy path r tr =
  (Ok (Response (BodyStream (stream_generator resp)) (status_code resp)
         (relayed_headers resp
          +++ [("Cache-Control", "no-cache"); ("Connection", "keep-alive")])
         (Some (headers_get (resp_headers resp)
                  "content-type" "text/plain"))),
   tr +++ [Log INFO (proxying_line path r); Log INFO detected_line;
          Upstream (streaming_request path r)]).
Proof.
  intros Hq Hs Hr. rewrite proxy_streaming_branch by assumption.
  unfold proxy_streaming_response, try_except, bind, do_request, ret.
  fold (streaming_request path r). rewrite Hr.
  unfold relayed_headers. now rewrite <- !app_assoc.
Qed.

Lemma proxy_streaming_raise (path : string) (r : request)
    (tr : list event) (e : exn) :
  Utf8.valid (query_string r) = true ->
  wants_stream r = true ->
  requests_request (streaming_request path r) = Raise e ->
  proxy path r tr =
  (Ok (JsonStatus [("error", "Streaming setup error");
                   ("message", exn_str e)] 500),
   tr +++ [Log INFO (proxying_line path r); Log INFO detected_line;
          Upstream (streaming_request path r);
          Log ERROR ("Error setting up streaming: " ++ exn_str e)]).
Proof.
  intros Hq Hs Hr. rewrite proxy_streaming_branch by assumption.
  unfold proxy_streaming_response, try_except, bind, do_request, ret,
    logger_error, emit.
  fold (streaming_request path r). rewrite Hr.
  now rewrite <- !app_assoc.
Qed.

Lemma proxy_buffered_ok (path : string) (r : request) (tr : list event)
    (resp : response) :
  Utf8.valid (query_string r) = true ->
  wants_stream r = false ->
  requests_request (buffered_request path r) = Ok resp ->
  proxy path r tr =
  (Ok (Response (BodyBytes (content resp)) (status_code resp)
         (relayed_headers resp) None),
   tr +++ [Log INFO (proxying_line path r);
          Upstream (buffered_request path r);
          Log INFO (response_line r resp)]).
Proof.
  unfold wants_stream. intros Hq Hs Hr.
  unfold proxy, bind. rewrite (make_target_url_ok _ _ _ Hq).
  unfold try_except, bind, do_request, logger_info, emit, ret.
  rewrite is_streaming_request_total, Hs.
  fold (buffered_request path r). rewrite Hr.
  now rewrite <- !app_assoc.
Qed.

Lemma proxy_buffered_raise (path : string) (r : request)
    (tr : list event) (e : exn) :
  Utf8.valid (query_string r) = true ->
  wants_stream r = false ->
  requests_request (buffered_request path r) = Raise e ->
  proxy path r tr =
  if is_ConnectionError e then
    (Ok (JsonStatus
           [("error", "Connection error");
            ("message", "Unable to connect to llama.cpp server at "
                        ++ LLAMA_SERVER)] 502),
     tr +++ [Log INFO (proxying_line path r);
            Upstream (buffered_request path r);
            Log ERROR ("Connection error: Unable to connect to "
                       ++ LLAMA_SERVER)])
  else if is_Timeout e then
    (Ok (JsonStatus
           [("error", "Timeout error");
            ("message", "Request to llama.cpp server timed out")] 504),
     tr +++ [Log INFO (proxying_line path r);
            Upstream (buffered_request path r);
            Log ERROR ("Timeout error: Request to " ++ LLAMA_SERVER
                       ++ " timed out")])
  else
    (Ok (JsonStatus [("error", "Proxy error"); ("message", exn_str e)]
           500),
     tr +++ [Log INFO (proxying_line path r);
            Upstream (buffered_request path r);
            Log ERROR ("Proxy error: " ++ exn_str e)]).
Proof.
  unfold wants_stream. intros Hq Hs Hr.
  unfold proxy, bind. rewrite (make_target_url_ok _ _ _ Hq).
  unfold try_except, bind, do_request, logger_info, logger_error,
    emit, ret.
  rewrite is_streaming_request_total, Hs.
  fold (buffered_request path r). rewrite Hr.
  destruct (is_ConnectionError e); [|destruct (is_Timeout e)];
    now rewrite <- !app_assoc.
Qed.

(** [proxy] answers every request whose query string decodes: whatever
    the upstream does, the view returns a result and lets no exception
    escape. *)
Lemma proxy_total (path : string) (r : request) (tr : list event) :
  Utf8.valid (query_string r) = true ->
  exists v tr', proxy path r tr = (Ok v, tr').
Proof.
  intros Hq. destruct (wants_stream r) eqn:Hs.
  - destruct (requests_request (streaming_request path r)) eqn:Hr.
    + rewrite (proxy_streaming_ok _ _ _ _ Hq Hs Hr). eauto.
    + rewrite (proxy_streaming_raise _ _ _ _ Hq Hs Hr). eauto.
  - destruct (requests_request (buffered_request path r)) eqn:Hr.
    + rewrite (proxy_buffered_ok _ _ _ _ Hq Hs Hr). eauto.
    + rewrite (proxy_buffered_raise _ _ _ _ Hq Hs Hr).
      destruct (is_ConnectionError e); [|destruct (is_Timeout e)]; eauto.
Qed.

(** Both calls carry the query twice: in the url, as received, and as
    [params], parsed. *)
Lemma upstream_call_query (path : string) (r : request) :
  call_url (buffered_request path r) = target_url_of path r
  /\ call_params (buffered_request path r) = args r
  /\ call_url (streaming_request path r) = target_url_of path r
  /\ call_params (streaming_request path r) = args r.
Proof. repeat split. Qed.

Lemma target_url_of_query (path : string) (r : request) :
  Str.nonempty (query_string r) = true ->
  target_url_of path r
  = (LLAMA_SERVER ++ "/" ++ path) ++ "?" ++ query_string r.
Proof. intros H. unfold target_url_of. now rewrite H. Qed.

Lemma target_url_of_no_query (path : string) (r : request) :
  query_string r = "" ->
  target_url_of path r = LLAMA_SERVER ++ "/" ++ path.
Proof. intros H. unfold target_url_of. now rewrite H. Qed.

(** On the streaming path every upstream header outside
    [excluded_headers] is handed on, a Cache-Control header included,
    and [no-cache] is added after it. *)
Lemma streaming_relays_upstream_header (path : string) (r : request)
    (tr : list event) (resp : response) (k v : string) :
  Utf8.valid (query_string r) = true ->
  wants_stream r = true ->
  requests_request (streaming_request path r) = Ok resp ->
  In (k, v) (resp_headers resp) ->
  ~ In (Str.lower k) excluded_headers ->
  exists b hs mt tr',
    proxy path r tr = (Ok (Response b (status_code resp) hs mt), tr')
    /\ In (k, v) hs
    /\ In ("Cache-Control", "no-cache") hs
    /\ In ("Connection", "keep-alive") hs.
Proof.
  intros Hq Hs Hr Hin Hk. do 4 eexists. split.
  - apply proxy_streaming_ok; eassumption.
  - split; [|split]; apply in_or_app.
    + left. now apply relayed_headers_In.
    + right. simpl. auto.
    + right. simpl. auto.
Qed.

(* ---------------------------------------------------------------- *)
(** *** The streaming path *)

(** C1, as the program has it: in streaming mode, when the upstream
    call fails before a response is obtained (a connection error or any
    other exception), the proxy answers with status 500 and the JSON
    payload [error: Streaming setup error, message: str(e)].  No body
    stream is opened; the upstream was called once and the failure is
    logged once.  (The query string is taken to decode as UTF-8;
    otherwise [proxy] raises before it calls the upstream.) *)
Theorem streaming_setup_failure (path : string) (r : request)
    (tr : list event) (e : exn) :
  Utf8.valid (query_string r) = true ->
  wants_stream r = true ->
  requests_request (streaming_request path r) = Raise e ->
  exists tr',
    proxy path r tr =
    (Ok (JsonStatus [("error", "Streaming setup error");
                     ("message", exn_str e)] 500), tr +++ tr')
    /\ upstream_calls tr' = [streaming_request path r]
    /\ error_lines tr' = ["Error setting up streaming: " ++ exn_str e].
Proof.
  intros Hq Hs Hr. eexists. split.
  - apply proxy_streaming_raise; assumption.
  - split; reflexivity.
Qed.

(** C5, as the program has it: in streaming mode, when the upstream
    answers with a status other than 200, that status becomes the status
    of the proxy's own response, and the body stream consists of the
    non-empty upstream chunks alone: no status line is put in front.
    (The query string is taken to decode as UTF-8; otherwise [proxy]
    raises before it calls the upstream.) *)
Theorem streaming_status_relayed (path : string) (r : request)
    (tr : list event) (resp : response) :
  Utf8.valid (query_string r) = true ->
  wants_stream r = true ->
  requests_request (streaming_request path r) = Ok resp ->
  status_code resp <> 200 ->
  exists g hs mt tr',
    proxy path r tr =
    (Ok (Response (BodyStream g) (status_code resp) hs mt), tr')
    /\ gen_items g = filter Str.nonempty (chunks (iter_content resp)).
Proof.
  intros Hq Hs Hr _. do 4 eexists. split.
  - apply proxy_streaming_ok; eassumption.
  - apply relay_chunks_items.
Qed.

(** C10: in streaming mode the body handed to the caller yields exactly
    the non-empty chunks of the upstream iterator, in the order read;
    its bytes are those of all the chunks, and it ends as the iterator
    ends.  (A streaming answer exists only for a query string that decodes
    as UTF-8; otherwise [proxy] raises before it calls the upstream.) *)
Theorem streaming_body_relayed (path : string) (r : request)
    (tr : list event) (resp : response) :
  Utf8.valid (query_string r) = true ->
  wants_stream r = true ->
  requests_request (streaming_request path r) = Ok resp ->
  exists g st hs mt tr',
    proxy path r tr = (Ok (Response (BodyStream g) st hs mt), tr')
    /\ gen_items g = filter Str.nonempty (chunks (iter_content resp))
    /\ Str.join (gen_items g) = Str.join (chunks (iter_content resp))
    /\ gen_end g = failure (iter_content resp).
Proof.
  intros Hq Hs Hr. do 5 eexists. split; [|split; [|split]].
  - apply proxy_streaming_ok; eassumption.
  - apply relay_chunks_items.
  - unfold stream_generator. rewrite relay_chunks_items.
    apply join_filter_nonempty.
  - apply relay_chunks_end.
Qed.

(* ---------------------------------------------------------------- *)
(** *** The buffered path *)

(** C7, as the program has it: on the buffered path a failed upstream
    call is answered once, with a JSON payload of an [error] kind and a
    [message], after a single upstream call and one error log line.  The
    status is 502 for a connection error (a connect timeout, which is
    both a connection error and a timeout, included), 504 for a timeout
    that is not a connection error, and 500 for any other exception.
    (The query string is taken to decode as UTF-8; otherwise [proxy]
    raises before it calls the upstream.) *)
Theorem buffered_failure_response (path : string) (r : request)
    (tr : list event) (e : exn) :
  Utf8.valid (query_string r) = true ->
  wants_stream r = false ->
  requests_request (buffered_request path r) = Raise e ->
  exists kind message st tr',
    proxy path r tr =
    (Ok (JsonStatus [("error", kind); ("message", message)] st),
     tr +++ tr')
    /\ upstream_calls tr' = [buffered_request path r]
    /\ length (error_lines tr') = 1
    /\ (is_ConnectionError e = true ->
        st = 502 /\ kind = "Connection error"
        /\ message = "Unable to connect to llama.cpp server at "
                     ++ LLAMA_SERVER)
    /\ (is_ConnectionError e = false -> is_Timeout e = true ->
        st = 504 /\ kind = "Timeout error"
        /\ message = "Request to llama.cpp server timed out")
    /\ (is_ConnectionError e = false -> is_Timeout e = false ->
        st = 500 /\ kind = "Proxy error" /\ message = exn_str e).
Proof.
  intros Hq Hs Hr. pose proof (proxy_buffered_raise path r tr e Hq Hs Hr) as H.
  destruct (is_ConnectionError e) eqn:Hc; [|destruct (is_Timeout e) eqn:Ht];
    do 4 eexists; (split; [exact H|]);
    repeat split; try reflexivity; intros; discriminate.
Qed.

(** C8: on a successful buffered round trip the proxy hands back the
    upstream's status code and body unchanged, with the upstream's
    headers except content-encoding, content-length, transfer-encoding
    and connection; the request it sent upstream carried the inbound
    method and body and the inbound headers except host, connection and
    transfer-encoding.  (A round trip takes place only for a query string
    that decodes as UTF-8, and the inbound header names are unique.) *)
Theorem buffered_round_trip (path : string) (r : request)
    (tr : list event) (resp : response) :
  Utf8.valid (query_string r) = true ->
  wants_stream r = false ->
  NoDup (map fst (headers r)) ->
  requests_request (buffered_request path r) = Ok resp ->
  exists hs tr',
    proxy path r tr =
    (Ok (Response (BodyBytes (content resp)) (status_code resp) hs None),
     tr +++ tr')
    /\ upstream_calls tr' = [buffered_request path r]
    /\ call_method (buffered_request path r) = method r
    /\ call_data (buffered_request path r) = data r
    /\ call_headers (buffered_request path r) =
       filter (not_in_lower ["host"; "connection"; "transfer-encoding"])
         (headers r)
    /\ hs = filter (not_in_lower ["content-encoding"; "content-length";
                                  "transfer-encoding"; "connection"])
              (resp_headers resp)
    /\ (forall k v, In (k, v) (call_headers (buffered_request path r)) <->
                    In (k, v) (headers r) /\
                    ~ In (Str.lower k)
                        ["host"; "connection"; "transfer-encoding"])
    /\ (forall k v, In (k, v) hs <->
                    In (k, v) (resp_headers resp) /\
                    ~ In (Str.lower k)
                        ["content-encoding"; "content-length";
                         "transfer-encoding"; "connection"]).
Proof.
  intros Hq Hs Hk Hr. do 2 eexists. split.
  - apply proxy_buffered_ok; eassumption.
  - assert (Hf : call_headers (buffered_request path r) =
                 filter (not_in_lower request_excluded) (headers r))
      by (apply forward_headers_filter; assumption).
    split; [reflexivity|]. split; [reflexivity|]. split; [reflexivity|].
    split; [exact Hf|]. split; [reflexivity|]. split.
    + intros k v.
      rewrite Hf, filter_In, (not_in_lower_spec request_excluded (k, v)).
      reflexivity.
    + intros k v. apply (relayed_headers_In resp k v).
Qed.

(* ---------------------------------------------------------------- *)
(** *** Lookups in header lists and dicts *)

Lemma headers_get_first (hs before after : list header)
    (k v name default : string) :
  hs = (before ++ (k, v) :: after)%list ->
  Str.lower k = Str.lower name ->
  (forall k' v', In (k', v') before -> Str.lower k' <> Str.lower name) ->
  headers_get hs name default = v.
Proof.
  intros -> Hk. induction before as [|[k' v'] before IH]; simpl; intros Hb.
  - now rewrite Hk, String.eqb_refl.
  - destruct (String.eqb_spec (Str.lower k') (Str.lower name)) as [E|_].
    + exfalso. apply (Hb k' v'); auto.
    + apply IH. intros k2 v2 Hin. apply (Hb k2 v2). auto.
Qed.

Lemma headers_get_missing (hs : list header) (name default : string) :
  (forall k v, In (k, v) hs -> Str.lower k <> Str.lower name) ->
  headers_get hs name default = default.
Proof.
  induction hs as [|[k v] hs IH]; simpl; intros H; [reflexivity|].
  destruct (String.eqb_spec (Str.lower k) (Str.lower name)) as [E|_].
  - exfalso. apply (H k v); auto.
  - apply IH. intros k2 v2 Hin. apply (H k2 v2). auto.
Qed.

Lemma dict_get_missing {V} (d : list (string * V)) (k : string)
    (default : V) :
  (forall v, ~ In (k, v) d) -> dict_get d k default = default.
Proof.
  induction d as [|[k' v'] d IH]; simpl; intros H; [reflexivity|].
  destruct (String.eqb_spec k' k) as [->|_].
  - exfalso. apply (H v'). auto.
  - apply IH. intros v Hin. apply (H v). auto.
Qed.

Lemma dict_get_set_same {V} (d : list (string * V)) (k : string)
    (v default : V) :
  dict_get (dict_set d k v) k default = v.
Proof.
  induction d as [|[k' v'] d IH]; simpl.
  - now rewrite String.eqb_refl.
  - destruct (String.eqb k' k) eqn:E; simpl; rewrite E; auto.
Qed.

Lemma dict_get_set_other {V} (d : list (string * V)) (k k' : string)
    (v default : V) :
  k <> k' ->
  dict_get (dict_set d k v) k' default = dict_get d k' default.
Proof.
  intros Hne. induction d as [|[k0 v0] d IH]; simpl.
  - destruct (String.eqb_spec k k'); [contradiction | reflexivity].
  - destruct (String.eqb_spec k0 k) as [->|_]; simpl.
    + destruct (String.eqb_spec k k'); [contradiction | reflexivity].
    + now rewrite IH.
Qed.

Lemma dict_set_keys_In {V} (d : list (string * V)) (k x : string) (v : V) :
  In x (map fst (dict_set d k v)) -> In x (map fst d) \/ x = k.
Proof.
  rewrite !in_map_iff. intros [[k0 v0] [<- Hin]].
  destruct (dict_set_In _ _ _ _ Hin) as [H|H].
  - left. now exists (k0, v0).
  - right. now injection H.
Qed.

Lemma dict_set_nodup {V} (d : list (string * V)) (k : string) (v : V) :
  NoDup (map fst d) -> NoDup (map fst (dict_set d k v)).
Proof.
  induction d as [|[k' v'] d IH]; simpl; intros H.
  - repeat constructor. simpl. tauto.
  - destruct (String.eqb_spec k' k) as [->|Hne]; simpl; [exact H|].
    inversion H as [|? ? Hnotin Hnd]; subst. constructor; [|auto].
    intros Hin. destruct (dict_set_keys_In _ _ _ _ Hin) as [? | ->]; auto.
Qed.

Lemma fold_keep_nodup_keys (hs acc : list header) :
  NoDup (map fst acc) -> NoDup (map fst (fold_left keep_header hs acc)).
Proof.
  revert acc; induction hs as [|kv hs IH]; intros acc H; simpl; [exact H|].
  apply IH. unfold keep_header.
  destruct (not_in_lower request_excluded kv); [|exact H].
  now apply dict_set_nodup.
Qed.

Lemma fold_keep_get (hs acc : list header) (k default : string) :
  dict_get (fold_left keep_header hs acc) k default =
  if Str.in_list (Str.lower k) request_excluded
  then dict_get acc k default
  else last_value hs k (dict_get acc k default).
Proof.
  unfold last_value.
  revert acc; induction hs as [|[k0 v0] hs IH]; intros acc;
    cbn [fold_left].
  - now destruct (Str.in_list (Str.lower k) request_excluded).
  - rewrite IH. unfold keep_header, not_in_lower. cbn [fst snd].
    destruct (String.eqb_spec k0 k) as [->|Hne].
    + destruct (Str.in_list (Str.lower k) request_excluded);
        cbn [negb]; [reflexivity|].
      now rewrite dict_get_set_same.
    + destruct (Str.in_list (Str.lower k0) request_excluded); cbn [negb];
        [reflexivity|].
      now rewrite dict_get_set_other by assumption.
Qed.

Lemma filter_has_name_excluded (n : string) (hs : list header) :
  In n excluded_headers ->
  filter (has_name n) (filter (not_in_lower excluded_headers) hs) = [].
Proof.
  intros Hn. induction hs as [|kv hs IH]; simpl; [reflexivity|].
  destruct (not_in_lower excluded_headers kv) eqn:Hk; [|exact IH].
  simpl. unfold has_name at 1.
  destruct (String.eqb_spec (Str.lower (fst kv)) n) as [E|_]; [|exact IH].
  apply not_in_lower_spec in Hk. rewrite E in Hk. contradiction.
Qed.

Lemma filter_has_name_kept (n : string) (hs : list header) :
  ~ In n excluded_headers ->
  filter (has_name n) (filter (not_in_lower excluded_headers) hs)
  = filter (has_name n) hs.
Proof.
  intros Hn. induction hs as [|kv hs IH]; simpl; [reflexivity|].
  destruct (not_in_lower excluded_headers kv) eqn:Hk; simpl;
    [now rewrite IH|].
  unfold has_name at 2.
  destruct (String.eqb_spec (Str.lower (fst kv)) n) as [E|_]; [|exact IH].
  exfalso. apply Hn. rewrite <- E.
  apply in_list_spec. unfold not_in_lower in Hk.
  now apply negb_false_iff in Hk.
Qed.

Lemma startswith_refl (p : string) : Str.startswith p p = true.
Proof.
  induction p as [|c p IH]; simpl; [reflexivity|].
  now rewrite Ascii.eqb_refl.
Qed.

Lemma startswith_append (p s : string) : Str.startswith p (p ++ s) = true.
Proof. apply startswith_spec. now exists s. Qed.

Lemma gen_try_items (g : gen) (h : exn -> gen) :
  gen_items (gen_try g h) =
  gen_items g +++ match gen_end g with
                  | Some e => gen_items (h e)
                  | None => []
                  end.
Proof.
  induction g as [y k IH|ev k IH| |e]; simpl; try rewrite IH; reflexivity.
Qed.

Lemma gen_try_events (g : gen) (h : exn -> gen) :
  gen_events (gen_try g h) =
  gen_events g +++ match gen_end g with
                   | Some e => gen_events (h e)
                   | None => []
                   end.
Proof.
  induction g as [y k IH|ev k IH| |e]; simpl; try rewrite IH; reflexivity.
Qed.

Lemma upstream_calls_app (t1 t2 : list event) :
  upstream_calls (t1 +++ t2) = upstream_calls t1 +++ upstream_calls t2.
Proof.
  induction t1 as [|[lvl msg|c] t1 IH]; simpl; [reflexivity| |];
    now rewrite IH.
Qed.

Lemma error_lines_app (t1 t2 : list event) :
  error_lines (t1 +++ t2) = error_lines t1 +++ error_lines t2.
Proof.
  induction t1 as [|[[|] msg|c] t1 IH]; simpl; [reflexivity| | |];
    now rewrite IH.
Qed.

(* ---------------------------------------------------------------- *)
(** *** More on the classifier *)

(** X1: an Accept header that mentions [text/event-stream] or
    [application/x-ndjson] anywhere in its value makes the classifier
    return [True], whatever the body, the Content-Type and the query say.
    The header is found by its name in any letter case. *)
Theorem accept_header_forces_stream (r : request) (tr : list event)
    (before after : list header) (k v pre mt post : string) :
  headers r = before +++ (k, v) :: after ->
  Str.lower k = "accept" ->
  (forall k' v', In (k', v') before -> Str.lower k' <> "accept") ->
  mt = "text/event-stream" \/ mt = "application/x-ndjson" ->
  v = pre ++ mt ++ post ->
  is_streaming_request r tr = (Ok (PBool true), tr).
Proof.
  intros Hh Hk Hb Hmt Hv. rewrite is_streaming_request_run.
  assert (Ha : accept_signal r = true).
  { unfold accept_signal.
    rewrite (headers_get_first _ _ _ _ _ "Accept" "" Hh Hk Hb).
    apply orb_true_iff.
    destruct Hmt as [-> | ->]; [left | right];
      apply contains_spec; now exists pre, post. }
  now rewrite Ha.
Qed.

(** X2: the [stream] query parameter is compared after lower-casing, so
    [TRUE], [Yes] or [1] make the classifier return [True], whatever the
    headers and the body say. *)
Theorem stream_param_any_case (r : request) (tr : list event) :
  In (Str.lower (args_get (args r) "stream" "")) ["true"; "1"; "yes"] ->
  is_streaming_request r tr = (Ok (PBool true), tr).
Proof.
  intros H. rewrite is_streaming_request_run.
  assert (Hq : query_signal r = true) by now apply in_list_spec.
  now rewrite Hq, orb_true_r.
Qed.

(** X3: with no Accept or query signal, the classifier hands back the
    [stream] entry of a JSON-typed mapping as it is ([False] when the key
    is missing), not a boolean made from it; [proxy] takes the streaming
    path exactly when that value is truthy. *)
Theorem classifier_returns_stream_value (r : request) (tr : list event)
    (d : list (string * pyval)) :
  accept_signal r = false ->
  query_signal r = false ->
  is_json r = true ->
  json_loads (data r) = Some (PDict d) ->
  is_streaming_request r tr = (Ok (dict_get d "stream" (PBool false)), tr)
  /\ wants_stream r = truthy (dict_get d "stream" (PBool false)).
Proof.
  intros Ha Hq Hj Hl. split.
  - now rewrite is_streaming_request_run, Ha, Hq, Hj, Hl.
  - unfold wants_stream. now rewrite verdict_eq, Ha, Hq, Hj, Hl.
Qed.

(** X4: a JSON body whose top-level value is not a mapping (a list, a
    string, a number, a boolean, null) is left out of the decision. *)
Theorem non_mapping_body_ignored (r : request) (tr : list event)
    (v : pyval) :
  json_loads (data r) = Some v ->
  (forall d, v <> PDict d) ->
  is_streaming_request r tr =
  (Ok (PBool (accept_signal r || query_signal r)), tr).
Proof.
  intros Hl Hv. rewrite is_streaming_request_run, Hl.
  destruct (accept_signal r || query_signal r), (is_json r);
    try reflexivity; destruct v; try reflexivity; now destruct (Hv d).
Qed.

(** X5: a request with no Accept header, no [stream] query parameter and
    no [stream] entry in a JSON-typed mapping (or no JSON Content-Type at
    all) is classified [False] and takes the buffered path. *)
Theorem no_signal_is_buffered (r : request) (tr : list event) :
  (forall k v, In (k, v) (headers r) -> Str.lower k <> "accept") ->
  (forall v, ~ In ("stream", v) (args r)) ->
  is_json r = false \/
  (exists d, json_loads (data r) = Some (PDict d)
             /\ forall v, ~ In ("stream", v) d) ->
  is_streaming_request r tr = (Ok (PBool false), tr)
  /\ wants_stream r = false.
Proof.
  intros Hh Ha Hb.
  assert (E1 : accept_signal r = false).
  { unfold accept_signal. now rewrite (headers_get_missing _ "Accept" "" Hh). }
  assert (E2 : query_signal r = false).
  { unfold query_signal, args_get. now rewrite (dict_get_missing _ _ "" Ha). }
  assert (E : verdict r = PBool false).
  { rewrite verdict_eq, E1, E2. cbn [orb].
    destruct Hb as [-> | [d [-> Hd]]]; [reflexivity|].
    rewrite (dict_get_missing _ _ _ Hd). now destruct (is_json r). }
  split.
  - now rewrite is_streaming_request_total, E.
  - unfold wants_stream. now rewrite E.
Qed.

(* ---------------------------------------------------------------- *)
(** *** More on the forwarded headers *)

(** X6: the forwarded headers are a dict: no name occurs twice in them,
    each entry is an inbound header, and no entry is named host,
    connection or transfer-encoding in any letter case.  This holds for
    every list of inbound headers, repeated names included. *)
Theorem forward_headers_wellformed (r : request) :
  NoDup (map fst (forward_headers r))
  /\ forall k v, In (k, v) (forward_headers r) ->
                 In (k, v) (headers r)
                 /\ ~ In (Str.lower k)
                        ["host"; "connection"; "transfer-encoding"].
Proof.
  split.
  - unfold forward_headers. apply fold_keep_nodup_keys. constructor.
  - intros k v H. destruct (fold_keep_In _ _ _ H) as [[]|[Hin Hp]].
    split; [assumption|]. now apply not_in_lower_spec in Hp.
Qed.

(** X7: looking a name up in the forwarded headers gives the value of
    the last inbound header spelled so, and nothing for host, connection
    and transfer-encoding in any letter case: when a name is repeated,
    the later value replaces the earlier one. *)
Theorem forward_headers_last_value (r : request) (k default : string) :
  dict_get (forward_headers r) k default =
  if Str.in_list (Str.lower k) ["host"; "connection"; "transfer-encoding"]
  then default
  else last_value (headers r) k default.
Proof.
  unfold forward_headers. now rewrite fold_keep_get.
Qed.

(* ---------------------------------------------------------------- *)
(** *** More on [proxy] as a whole *)

(** X8: for a request whose query string is valid UTF-8 (an empty one
    included), whatever the upstream does, [proxy] raises nothing and
    calls the upstream exactly once: with streaming arguments when the
    classifier says so, with buffered arguments otherwise, and in both
    cases with the inbound method and body, the forwarded headers, the
    target url and the parsed query.  For any other request [proxy] raises
    the UnicodeDecodeError of [decode] before it logs or calls anything. *)
Theorem proxy_calls_upstream_once (path : string) (r : request)
    (tr : list event) :
  if Utf8.valid (query_string r) then
    exists v tr',
      proxy path r tr = (Ok v, tr +++ tr')
      /\ upstream_calls tr' = [the_call path r]
      /\ call_stream (the_call path r) = wants_stream r
      /\ call_allow_redirects (the_call path r) = wants_stream r
      /\ call_timeout (the_call path r) =
         (if wants_stream r then (Some 10, None) else (Some 300, Some 300))
      /\ call_method (the_call path r) = method r
      /\ call_data (the_call path r) = data r
      /\ call_headers (the_call path r) = forward_headers r
      /\ call_url (the_call path r) = target_url_of path r
      /\ call_params (the_call path r) = args r
  else
    exists e,
      proxy path r tr = (Raise e, tr)
      /\ exn_class_of e = UnicodeDecodeError.
Proof.
  destruct (Utf8.valid (query_string r)) eqn:Hq;
    [|now apply proxy_bad_query].
  unfold the_call. destruct (wants_stream r) eqn:Hs.
  - destruct (requests_request (streaming_request path r)) eqn:Hr.
    + rewrite (proxy_streaming_ok _ _ _ _ Hq Hs Hr).
      do 2 eexists. repeat split.
    + rewrite (proxy_streaming_raise _ _ _ _ Hq Hs Hr).
      do 2 eexists. repeat split.
  - destruct (requests_request (buffered_request path r)) eqn:Hr.
    + rewrite (proxy_buffered_ok _ _ _ _ Hq Hs Hr).
      do 2 eexists. repeat split.
    + rewrite (proxy_buffered_raise _ _ _ _ Hq Hs Hr).
      destruct (is_ConnectionError e); [|destruct (is_Timeout e)];
        do 2 eexists; repeat split.
Qed.

(** X9: for a request whose query string is valid UTF-8, the answer of
    [proxy] follows the outcome of its one upstream call.  When the call
    returns, the answer is a response with the upstream's status code and
    no error is logged; when the call raises, the answer is a JSON payload
    of an [error] and a [message] with status 500, 502 or 504 (500 only,
    on the streaming path), and exactly one error is logged. *)
Theorem proxy_outcome (path : string) (r : request) (tr : list event) :
  Utf8.valid (query_string r) = true ->
  exists v tr',
    proxy path r tr = (Ok v, tr +++ tr')
    /\ match requests_request (the_call path r) with
       | Ok resp =>
           (exists b hs mt, v = Response b (status_code resp) hs mt)
           /\ error_lines tr' = []
       | Raise e =>
           (exists kind message st,
               v = JsonStatus [("error", kind); ("message", message)] st
               /\ In st [500; 502; 504]
               /\ (wants_stream r = true -> st = 500))
           /\ length (error_lines tr') = 1
       end.
Proof.
  intros Hq. unfold the_call. destruct (wants_stream r) eqn:Hs.
  - destruct (requests_request (streaming_request path r)) eqn:Hr.
    + rewrite (proxy_streaming_ok _ _ _ _ Hq Hs Hr).
      do 2 eexists. split; [reflexivity|]. split; [eauto | reflexivity].
    + rewrite (proxy_streaming_raise _ _ _ _ Hq Hs Hr).
      do 2 eexists. split; [reflexivity|]. split; [|reflexivity].
      do 3 eexists. split; [reflexivity|]. simpl; auto.
  - destruct (requests_request (buffered_request path r)) eqn:Hr.
    + rewrite (proxy_buffered_ok _ _ _ _ Hq Hs Hr).
      do 2 eexists. split; [reflexivity|]. split; [eauto | reflexivity].
    + rewrite (proxy_buffered_raise _ _ _ _ Hq Hs Hr).
      destruct (is_ConnectionError e); [|destruct (is_Timeout e)];
        do 2 eexists; (split; [reflexivity|]); (split; [|reflexivity]);
        do 3 eexists; (split; [reflexivity|]); simpl;
        (split; [tauto | discriminate]).
Qed.

(** X10: the target that [health_check] reports is the base of every url
    that [proxy] calls: the url of the upstream call starts with that
    target, a slash and the path, and is exactly that when the request
    has no query string.  [health_check] itself answers with status 200
    without calling the upstream or logging. *)
Theorem health_target_is_proxy_base (path : string) (r : request)
    (tr : list event) :
  exists payload,
    health_check tr = (Ok (JsonStatus payload 200), tr)
    /\ dict_get payload "status" "" = "running"
    /\ Str.startswith (dict_get payload "target" "" ++ "/" ++ path)
         (call_url (the_call path r)) = true
    /\ (query_string r = "" ->
        call_url (the_call path r)
        = dict_get payload "target" "" ++ "/" ++ path).
Proof.
  eexists. split; [reflexivity|]. split; [reflexivity|].
  assert (Hu : call_url (the_call path r) = target_url_of path r)
    by (unfold the_call; now destruct (wants_stream r)).
  rewrite Hu. cbn [dict_get String.eqb Ascii.eqb Bool.eqb].
  unfold target_url_of. split.
  - destruct (Str.nonempty (query_string r)).
    + apply startswith_append.
    + apply startswith_refl.
  - intros ->. reflexivity.
Qed.

(* ---------------------------------------------------------------- *)
(** *** More on the streamed response *)

(** X11: on the streaming path the response headers are the upstream's
    headers without content-encoding, content-length, transfer-encoding
    and connection (in any letter case), followed by
    [Cache-Control: no-cache] and [Connection: keep-alive].  So the
    Connection header of the response is that one alone, whatever the
    upstream sent, while the Cache-Control headers of the upstream stay
    in front of the added one.  (The query string is taken to decode as
    UTF-8.) *)
Theorem streaming_response_headers (path : string) (r : request)
    (tr : list event) (resp : response) :
  Utf8.valid (query_string r) = true ->
  wants_stream r = true ->
  requests_request (streaming_request path r) = Ok resp ->
  exists b hs mt tr',
    proxy path r tr = (Ok (Response b (status_code resp) hs mt), tr')
    /\ hs = filter (not_in_lower ["content-encoding"; "content-length";
                                  "transfer-encoding"; "connection"])
              (resp_headers resp)
            +++ [("Cache-Control", "no-cache"); ("Connection", "keep-alive")]
    /\ filter (has_name "connection") hs = [("Connection", "keep-alive")]
    /\ filter (has_name "cache-control") hs
       = filter (has_name "cache-control") (resp_headers resp)
         +++ [("Cache-Control", "no-cache")]
    /\ filter (has_name "content-encoding") hs = []
    /\ filter (has_name "content-length") hs = []
    /\ filter (has_name "transfer-encoding") hs = [].
Proof.
  intros Hq Hs Hr. do 4 eexists. split; [|split; [reflexivity|]].
  - apply proxy_streaming_ok; assumption.
  - unfold relayed_headers. fold excluded_headers. rewrite !filter_app.
    rewrite (filter_has_name_excluded "connection"),
      (filter_has_name_excluded "content-encoding"),
      (filter_has_name_excluded "content-length"),
      (filter_has_name_excluded "transfer-encoding") by (simpl; tauto).
    rewrite filter_has_name_kept
      by (simpl; intros [H|[H|[H|[H|[]]]]]; discriminate H).
    repeat split.
Qed.

(** X12: on the streaming path the response is typed by the upstream's
    first Content-Type header, found by its name in any letter case, and
    as [text/plain] when the upstream sent none.  (The query string is
    taken to decode as UTF-8.) *)
Theorem streaming_mimetype (path : string) (r : request)
    (tr : list event) (resp : response) :
  Utf8.valid (query_string r) = true ->
  wants_stream r = true ->
  requests_request (streaming_request path r) = Ok resp ->
  exists b hs t tr',
    proxy path r tr = (Ok (Response b (status_code resp) hs (Some t)), tr')
    /\ (forall before k v after,
           resp_headers resp = before +++ (k, v) :: after ->
           Str.lower k = "content-type" ->
           (forall k' v', In (k', v') before ->
                          Str.lower k' <> "content-type") ->
           t = v)
    /\ ((forall k v, In (k, v) (resp_headers resp) ->
                     Str.lower k <> "content-type") ->
        t = "text/plain").
Proof.
  intros Hq Hs Hr. do 4 eexists. split; [|split].
  - apply proxy_streaming_ok; assumption.
  - intros before k v after Hh Hk Hb.
    exact (headers_get_first _ _ _ _ _ "content-type" "text/plain"
             Hh Hk Hb).
  - intros Hn.
    exact (headers_get_missing _ "content-type" "text/plain" Hn).
Qed.

(* ---------------------------------------------------------------- *)
(** *** The generator [generate] *)

(** X13: whatever the upstream does, [generate] calls it exactly once,
    with the streaming arguments, and lets no exception escape. *)
Theorem generate_calls_upstream_once (target_url : string)
    (hdrs : list header) (body : string) (r : request) :
  upstream_calls (gen_events (generate target_url hdrs body r))
  = [streaming_call target_url hdrs body r]
  /\ gen_end (generate target_url hdrs body r) = None.
Proof.
  split; [|apply generate_never_raises].
  unfold generate. rewrite gen_try_events. cbn [gen_events gen_end].
  destruct (requests_request (streaming_call target_url hdrs body r))
    as [resp|e].
  - cbn [gen_events gen_end].
    destruct (negb (Nat.eqb (status_code resp) 200));
      cbn [gen_events gen_end];
      rewrite relay_chunks_events, relay_chunks_end;
      destruct (failure (iter_content resp)) as [e|]; [| reflexivity | |
      reflexivity]; now destruct (is_ConnectionError e).
  - cbn [gen_events gen_end]. now destruct (is_ConnectionError e).
Qed.

(** X14: when the upstream call itself raises, [generate] yields one
    event and nothing else: [data: ] followed by the printed dict of an
    [error] and a [message] and two newlines, of kind Connection error for
    a connection error and of kind Streaming error, with the text of the
    exception, otherwise; the failure is logged once. *)
Theorem generate_setup_failure (target_url : string) (hdrs : list header)
    (body : string) (r : request) (e : exn) :
  requests_request (streaming_call target_url hdrs body r) = Raise e ->
  gen_items (generate target_url hdrs body r) = [generate_error_event e]
  /\ (exists payload,
         generate_error_event e = "data: " ++ payload ++ nl ++ nl)
  /\ length (error_lines (gen_events (generate target_url hdrs body r))) = 1.
Proof.
  intros Hr. unfold generate, generate_error_event.
  rewrite gen_try_items, gen_try_events, Hr. cbn [gen_items gen_events gen_end].
  destruct (is_ConnectionError e); repeat split; unfold sse_error; eauto.
Qed.

(** X15: when the upstream answers and its body is read to the end,
    [generate] yields the non-empty chunks in order, after a first line
    [HTTP/1.1 status reason] exactly when the status is not 200, and logs
    no error. *)
Theorem generate_relays_body (target_url : string) (hdrs : list header)
    (body : string) (r : request) (resp : response) :
  requests_request (streaming_call target_url hdrs body r) = Ok resp ->
  failure (iter_content resp) = None ->
  gen_items (generate target_url hdrs body r)
  = generate_marker resp
    +++ filter Str.nonempty (chunks (iter_content resp))
  /\ error_lines (gen_events (generate target_url hdrs body r)) = [].
Proof.
  intros Hr Hf. unfold generate, generate_marker.
  rewrite gen_try_items, gen_try_events, Hr.
  cbn [gen_items gen_events gen_end].
  destruct (Nat.eqb (status_code resp) 200);
    cbn [negb gen_items gen_events gen_end];
    rewrite relay_chunks_items, relay_chunks_events, relay_chunks_end, Hf;
    rewrite ?app_nil_r; split; reflexivity.
Qed.

(** X16: when the body of the upstream breaks off with an exception,
    [generate] still yields every non-empty chunk read before it (and the
    status line, for a status other than 200), then one last error event
    for the exception, and returns; the failure is logged once. *)
Theorem generate_mid_stream_failure (target_url : string)
    (hdrs : list header) (body : string) (r : request) (resp : response)
    (e : exn) :
  requests_request (streaming_call target_url hdrs body r) = Ok resp ->
  failure (iter_content resp) = Some e ->
  gen_items (generate target_url hdrs body r)
  = generate_marker resp
    +++ filter Str.nonempty (chunks (iter_content resp))
    +++ [generate_error_event e]
  /\ gen_end (generate target_url hdrs body r) = None
  /\ length (error_lines (gen_events (generate target_url hdrs body r))) = 1.
Proof.
  intros Hr Hf. split; [|split; [apply generate_never_raises|]].
  - unfold generate, generate_marker, generate_error_event.
    rewrite gen_try_items, Hr. cbn [gen_items gen_end].
    destruct (Nat.eqb (status_code resp) 200);
      cbn [negb gen_items gen_end];
      rewrite relay_chunks_items, relay_chunks_end, Hf;
      destruct (is_ConnectionError e); cbn [gen_items app];
      reflexivity.
  - unfold generate. rewrite gen_try_events, Hr.
    cbn [gen_events gen_end].
    destruct (Nat.eqb (status_code resp) 200);
      cbn [negb gen_events gen_end];
      rewrite relay_chunks_events, relay_chunks_end, Hf;
      destruct (is_ConnectionError e); reflexivity.
Qed.

End Proxy.

(* ------------------------------------------------------------------ *)
(** ** Runs on concrete requests *)

Import Sample.

Abbreviation run_proxy up := (proxy base Json.loads up clock quote).

(** *** The classifier *)

(** C3, the statement without the Content-Type condition fails: a body
    that decodes to a mapping with [stream] true, sent without a
    Content-Type header, is not classified as streaming. *)
Lemma untyped_json_body_not_streamed :
  Json.loads (data untyped_stream_request)
  = Some (PDict [("prompt", PStr "hi"); ("stream", PBool true)])
  /\ is_streaming_request Json.loads untyped_stream_request []
     = (Ok (PBool false), [])
  /\ ~ classifies_by_signals Json.loads untyped_stream_request.
Proof.
  split; [vm_compute; reflexivity|]. split; [vm_compute; reflexivity|].
  intros [_ H].
  assert (Hw : wants_stream Json.loads untyped_stream_request = true)
    by (apply H; right; right; vm_compute; reflexivity).
  vm_compute in Hw. discriminate Hw.
Qed.

Lemma is_streaming_request_iff_witness :
  exists v, is_streaming_request Json.loads json_stream_request []
            = (Ok v, [])
            /\ truthy v = true.
Proof.
  destruct (is_streaming_request_iff Json.loads json_stream_request [])
    as (v & Hrun & _ & Htrue & _).
  exists v. split; [exact Hrun|].
  apply (Htrue [("prompt", PStr "hi"); ("stream", PBool true)]);
    vm_compute; reflexivity.
Defined.

Lemma is_streaming_request_malformed_body_witness :
  Json.loads (data malformed_request) = None
  /\ is_streaming_request Json.loads malformed_request []
     = (Ok (PBool false), []).
Proof.
  split; [vm_compute; reflexivity|].
  apply (is_streaming_request_malformed_body Json.loads malformed_request []).
  vm_compute; reflexivity.
Defined.

(** *** The streaming path *)

(** C1 fails as stated: a refused connection on a streaming request is
    answered with status 500 and a JSON payload, not with an event inside
    a body stream. *)
Lemma refused_connection_not_in_stream :
  is_ConnectionError (mkExn ConnectionError "Connection refused") = true
  /\ fst (run_proxy up_refused "v1/events" sse_request [])
     = Ok (JsonStatus [("error", "Streaming setup error");
                       ("message", "Connection refused")] 500)
  /\ ~ connection_failure_in_stream base Json.loads up_refused clock quote
         "v1/events" sse_request.
Proof.
  split; [reflexivity|]. split; [vm_compute; reflexivity|].
  intros H.
  destruct (H (mkExn ConnectionError "Connection refused") []
              eq_refl eq_refl eq_refl)
    as (g & st & hs & mt & tr' & payload & Hrun & _).
  vm_compute in Hrun. discriminate Hrun.
Qed.

Lemma streaming_setup_failure_witness :
  exists tr',
    run_proxy up_refused "v1/events" sse_request []
    = (Ok (JsonStatus [("error", "Streaming setup error");
                       ("message", "Connection refused")] 500), tr')
    /\ length (upstream_calls tr') = 1.
Proof.
  destruct (streaming_setup_failure base Json.loads up_refused clock quote
              "v1/events" sse_request []
              (mkExn ConnectionError "Connection refused"))
    as (tr' & Hrun & Hcalls & _).
  - vm_compute; reflexivity.
  - vm_compute; reflexivity.
  - vm_compute; reflexivity.
  - exists tr'. split; [exact Hrun|]. rewrite Hcalls. reflexivity.
Defined.

(** C5 fails as stated: a 404 from the upstream reaches the caller as the
    status of the response, and the body stream starts with the first
    upstream chunk, not with a status line. *)
Lemma not_found_has_no_marker :
  fst (run_proxy up_not_found "v1/events" sse_request [])
  = Ok (Response (BodyStream (GYield "no such model" GReturn)) 404
          [("Content-Type", "text/plain"); ("Cache-Control", "no-cache");
           ("Connection", "keep-alive")]
          (Some "text/plain"))
  /\ ~ marker_prepended base Json.loads up_not_found clock quote
         "v1/events" sse_request.
Proof.
  split; [vm_compute; reflexivity|].
  intros H.
  destruct (H (mkResponse 404 "Not Found" [("Content-Type", "text/plain")]
                 "no such model" (mkIter ["no such model"] None)) []
              eq_refl eq_refl)
    as (g & st & hs & mt & tr' & rest & Hrun & Hitems).
  - discriminate.
  - vm_compute in Hrun. injection Hrun as <- _ _ _ _.
    vm_compute in Hitems. discriminate Hitems.
Qed.

Lemma streaming_status_relayed_witness :
  exists g hs mt tr',
    run_proxy up_not_found "v1/events" sse_request []
    = (Ok (Response (BodyStream g) 404 hs mt), tr')
    /\ gen_items g = ["no such model"].
Proof.
  destruct (streaming_status_relayed base Json.loads up_not_found clock quote
              "v1/events" sse_request []
              (mkResponse 404 "Not Found" [("Content-Type", "text/plain")]
                 "no such model" (mkIter ["no such model"] None)))
    as (g & hs & mt & tr' & Hrun & Hitems).
  - vm_compute; reflexivity.
  - vm_compute; reflexivity.
  - vm_compute; reflexivity.
  - simpl. lia.
  - exists g, hs, mt, tr'. split; [exact Hrun | exact Hitems].
Defined.

Lemma streaming_body_relayed_witness :
  exists g st hs mt tr',
    run_proxy up_cached "v1/events" sse_request []
    = (Ok (Response (BodyStream g) st hs mt), tr')
    /\ gen_items g = ["a"; "b"; "c"]
    /\ Str.join (gen_items g) = "abc".
Proof.
  destruct (streaming_body_relayed base Json.loads up_cached clock quote
              "v1/events" sse_request []
              (mkResponse 200 "OK"
                 [("Cache-Control", "max-age=3600");
                  ("Content-Type", "text/event-stream");
                  ("Connection", "close")]
                 "" (mkIter ["a"; ""; "b"; "c"] None)))
    as (g & st & hs & mt & tr' & Hrun & Hitems & Hjoin & _).
  - vm_compute; reflexivity.
  - vm_compute; reflexivity.
  - vm_compute; reflexivity.
  - exists g, st, hs, mt, tr'.
    split; [exact Hrun|]. split; [exact Hitems | exact Hjoin].
Defined.

(** C2 at a failing input: the upstream body breaks off after the chunk
    [a].  The stream handed to the caller yields [a] and then lets the
    exception escape: nothing is logged and no error event is yielded.
    The generator [generate], which the program defines and never uses,
    ends the same stream with an error event. *)
Theorem mid_stream_failure_escapes :
  let e := mkExn ChunkedEncodingError "Connection broken" in
  let g := GYield "a" (GRaise e) in
  let unused :=
    generate base up_broken_stream clock quote
      "http://localhost:9997/v1/events" [("Accept", "text/event-stream")]
      "" sse_request in
  fst (run_proxy up_broken_stream "v1/events" sse_request [])
  = Ok (Response (BodyStream g) 200
          [("Content-Type", "text/event-stream");
           ("Cache-Control", "no-cache"); ("Connection", "keep-alive")]
          (Some "text/event-stream"))
  /\ gen_items g = ["a"] /\ gen_end g = Some e /\ gen_events g = []
  /\ error_lines (snd (run_proxy up_broken_stream "v1/events" sse_request []))
     = []
  /\ gen_items unused
     = ["a"; sse_error quote "Streaming error" "Connection broken"]
  /\ gen_end unused = None.
Proof.
  vm_compute. repeat split; reflexivity.
Qed.

(** C6 at a failing input: the upstream sends its own Cache-Control and
    Connection headers.  The Connection header is replaced, the
    Cache-Control header is not: the response carries the upstream's
    value first and [no-cache] after it. *)
Theorem upstream_cache_control_survives :
  let hs := [("Cache-Control", "max-age=3600");
             ("Content-Type", "text/event-stream");
             ("Cache-Control", "no-cache"); ("Connection", "keep-alive")] in
  fst (run_proxy up_cached "v1/events" sse_request [])
  = Ok (Response (BodyStream (GYield "a" (GYield "b" (GYield "c" GReturn))))
          200 hs (Some "text/event-stream"))
  /\ headers_get hs "Cache-Control" "" = "max-age=3600"
  /\ filter (fun kv => String.eqb (Str.lower (fst kv)) "cache-control") hs
     = [("Cache-Control", "max-age=3600"); ("Cache-Control", "no-cache")]
  /\ filter (fun kv => String.eqb (Str.lower (fst kv)) "connection") hs
     = [("Connection", "keep-alive")].
Proof.
  vm_compute. repeat split; reflexivity.
Qed.

(** *** The buffered path *)

(** C7 fails as stated for a timeout that is also a connection error: a
    connect timeout is answered with 502, not 504. *)
Lemma connect_timeout_is_502 :
  is_Timeout (mkExn ConnectTimeout "Connection to localhost timed out")
  = true
  /\ fst (run_proxy up_connect_timeout "v1/models" plain_request [])
     = Ok (JsonStatus
             [("error", "Connection error");
              ("message",
               "Unable to connect to llama.cpp server at http://localhost:9997")]
             502)
  /\ ~ timeout_answered_504 base Json.loads up_connect_timeout clock quote
         "v1/models" plain_request.
Proof.
  split; [reflexivity|]. split; [vm_compute; reflexivity|].
  intros H.
  destruct (H (mkExn ConnectTimeout "Connection to localhost timed out") []
              eq_refl eq_refl eq_refl)
    as (payload & tr' & Hrun).
  vm_compute in Hrun. discriminate Hrun.
Qed.

Lemma buffered_failure_response_witness :
  exists tr',
    run_proxy up_read_timeout "v1/models" plain_request []
    = (Ok (JsonStatus
             [("error", "Timeout error");
              ("message", "Request to llama.cpp server timed out")] 504),
       tr').
Proof.
  destruct (buffered_failure_response base Json.loads up_read_timeout clock
              quote "v1/models" plain_request []
              (mkExn ReadTimeout "Read timed out"))
    as (kind & message & st & tr' & Hrun & _ & _ & _ & Ht & _).
  - vm_compute; reflexivity.
  - vm_compute; reflexivity.
  - vm_compute; reflexivity.
  - destruct (Ht eq_refl eq_refl) as (-> & -> & ->).
    exists ([] +++ tr'). exact Hrun.
Defined.

Lemma buffered_round_trip_witness :
  exists tr',
    run_proxy up_hello "v1/models" plain_request []
    = (Ok (Response (BodyBytes "hello") 200 [("X-Test", "1")] None), tr')
    /\ map call_headers (upstream_calls tr')
       = [[("Accept", "*/*"); ("X-Trace", "7")]].
Proof.
  destruct (buffered_round_trip base Json.loads up_hello clock quote
              "v1/models" plain_request []
              (mkResponse 200 "OK"
                 [("X-Test", "1"); ("Content-Length", "5");
                  ("Connection", "close")]
                 "hello" (mkIter ["hello"] None)))
    as (hs & tr' & Hrun & Hcalls & _ & _ & _ & -> & _).
  - vm_compute; reflexivity.
  - vm_compute; reflexivity.
  - repeat constructor; simpl; intuition discriminate.
  - vm_compute; reflexivity.
  - exists tr'. split; [exact Hrun|]. rewrite Hcalls. vm_compute; reflexivity.
Defined.

(** C9 at a failing input: [GET /v1/models?a=1].  The url of the upstream
    call carries the query string as received, and the same call carries
    the parsed query again as [params]; the URL that [requests] sends has
    the parameter twice, the second copy encoded anew. *)
Theorem query_sent_twice :
  let tr := snd (run_proxy up_hello "v1/models" plain_request []) in
  map call_url (upstream_calls tr) = ["http://localhost:9997/v1/models?a=1"]
  /\ map call_params (upstream_calls tr) = [[("a", "1")]]
  /\ map Url.prepared_url (upstream_calls tr)
     = ["http://localhost:9997/v1/models?a=1&a=1"].
Proof.
  vm_compute. repeat split; reflexivity.
Qed.

(* ------------------------------------------------------------------ *)
(** ** Further runs on concrete requests *)

Lemma accept_header_forces_stream_witness :
  Json.loads (data accept_over_body_request)
  = Some (PDict [("stream", PBool false)])
  /\ is_streaming_request Json.loads accept_over_body_request []
     = (Ok (PBool true), []).
Proof.
  split; [vm_compute; reflexivity|].
  apply (accept_header_forces_stream Json.loads accept_over_body_request []
           [("Host", "localhost:8080"); ("Content-Type", "application/json")]
           [] "Accept" "text/html, text/event-stream;q=0.9"
           "text/html, " "text/event-stream" ";q=0.9").
  - reflexivity.
  - reflexivity.
  - simpl. intros k' v' [H|[H|[]]]; injection H as <- _; discriminate.
  - left; reflexivity.
  - reflexivity.
Defined.

Lemma stream_param_any_case_witness :
  is_streaming_request Json.loads upper_query_request []
  = (Ok (PBool true), []).
Proof.
  apply (stream_param_any_case Json.loads upper_query_request []).
  simpl. right; right; left; reflexivity.
Defined.

Lemma classifier_returns_stream_value_witness :
  is_streaming_request Json.loads string_false_request []
  = (Ok (PStr "false"), [])
  /\ wants_stream Json.loads string_false_request = true.
Proof.
  apply (classifier_returns_stream_value Json.loads string_false_request []
           [("stream", PStr "false")]); vm_compute; reflexivity.
Defined.

Lemma non_mapping_body_ignored_witness :
  is_streaming_request Json.loads list_body_request []
  = (Ok (PBool false), []).
Proof.
  apply (non_mapping_body_ignored Json.loads list_body_request []
           (PList [PDict [("stream", PBool true)]])).
  - vm_compute; reflexivity.
  - intros d; discriminate.
Defined.

Lemma no_signal_is_buffered_witness :
  is_streaming_request Json.loads bare_request [] = (Ok (PBool false), [])
  /\ wants_stream Json.loads bare_request = false.
Proof.
  apply (no_signal_is_buffered Json.loads bare_request []).
  - simpl. intros k v [H|[H|[]]]; injection H as <- _; discriminate.
  - simpl. tauto.
  - right. exists [("input", PStr "hi")]. split; [vm_compute; reflexivity|].
    simpl. intros v [H|[]]. discriminate H.
Defined.

Lemma streaming_response_headers_witness :
  exists b mt tr',
    run_proxy up_untyped_stream "v1/events" sse_request []
    = (Ok (Response b 200
             [("X-Test", "1"); ("Cache-Control", "no-cache");
              ("Connection", "keep-alive")] mt), tr').
Proof.
  destruct (streaming_response_headers base Json.loads up_untyped_stream
              clock quote "v1/events" sse_request []
              (mkResponse 200 "OK"
                 [("Content-Length", "3"); ("Transfer-Encoding", "chunked");
                  ("CONNECTION", "close"); ("X-Test", "1")]
                 "" (mkIter ["a"; ""; "b"] None)))
    as (b & hs & mt & tr' & Hrun & -> & _).
  - vm_compute; reflexivity.
  - vm_compute; reflexivity.
  - vm_compute; reflexivity.
  - exists b, mt, tr'. exact Hrun.
Defined.

Lemma streaming_mimetype_witness :
  exists b hs tr',
    run_proxy up_untyped_stream "v1/events" sse_request []
    = (Ok (Response b 200 hs (Some "text/plain")), tr').
Proof.
  destruct (streaming_mimetype base Json.loads up_untyped_stream
              clock quote "v1/events" sse_request []
              (mkResponse 200 "OK"
                 [("Content-Length", "3"); ("Transfer-Encoding", "chunked");
                  ("CONNECTION", "close"); ("X-Test", "1")]
                 "" (mkIter ["a"; ""; "b"] None)))
    as (b & hs & t & tr' & Hrun & _ & Hnone).
  - vm_compute; reflexivity.
  - vm_compute; reflexivity.
  - vm_compute; reflexivity.
  - exists b, hs, tr'. rewrite Hrun, Hnone; [reflexivity|].
    simpl. intros k v [H|[H|[H|[H|[]]]]]; injection H as <- _; discriminate.
Defined.

Lemma generate_setup_failure_witness :
  gen_items (generate base up_refused clock quote
               "http://localhost:9997/v1/events"
               [("Accept", "text/event-stream")] "" sse_request)
  = ["data: {'error': 'Connection error', 'message': 'Unable to connect to llama.cpp server at http://localhost:9997'}"
     ++ nl ++ nl].
Proof.
  destruct (generate_setup_failure base up_refused clock quote
              "http://localhost:9997/v1/events"
              [("Accept", "text/event-stream")] "" sse_request
              (mkExn ConnectionError "Connection refused"))
    as (Hitems & _).
  - reflexivity.
  - rewrite Hitems. vm_compute; reflexivity.
Defined.

Lemma generate_relays_body_witness :
  gen_items (generate base up_not_found clock quote
               "http://localhost:9997/v1/events"
               [("Accept", "text/event-stream")] "" sse_request)
  = ["HTTP/1.1 404 Not Found" ++ nl; "no such model"].
Proof.
  destruct (generate_relays_body base up_not_found clock quote
              "http://localhost:9997/v1/events"
              [("Accept", "text/event-stream")] "" sse_request
              (mkResponse 404 "Not Found" [("Content-Type", "text/plain")]
                 "no such model" (mkIter ["no such model"] None)))
    as (Hitems & _).
  - reflexivity.
  - reflexivity.
  - rewrite Hitems. vm_compute; reflexivity.
Defined.

Lemma generate_mid_stream_failure_witness :
  gen_items (generate base up_not_found_broken clock quote
               "http://localhost:9997/v1/events"
               [("Accept", "text/event-stream")] "" sse_request)
  = ["HTTP/1.1 404 Not Found" ++ nl; "no"; "such";
     "data: {'error': 'Connection error', 'message': 'Unable to connect to llama.cpp server at http://localhost:9997'}"
     ++ nl ++ nl].
Proof.
  destruct (generate_mid_stream_failure base up_not_found_broken clock quote
              "http://localhost:9997/v1/events"
              [("Accept", "text/event-stream")] "" sse_request
              (mkResponse 404 "Not Found" [("Content-Type", "text/plain")]
                 "" (mkIter ["no"; ""; "such"]
                       (Some (mkExn ConnectionError "Connection reset"))))
              (mkExn ConnectionError "Connection reset"))
    as (Hitems & _).
  - reflexivity.
  - reflexivity.
  - rewrite Hitems. vm_compute; reflexivity.
Defined.

Lemma forward_headers_last_value_witness :
  forward_headers repeated_header_request
  = [("X-Tag", "2"); ("X-Other", "3")]
  /\ dict_get (forward_headers repeated_header_request) "X-Tag" "" = "2"
  /\ dict_get (forward_headers repeated_header_request) "HOST" "" = "".
Proof.
  split; [vm_compute; reflexivity|].
  rewrite !(forward_headers_last_value repeated_header_request).
  split; vm_compute; reflexivity.
Defined.

Lemma proxy_calls_upstream_once_witness :
  Utf8.valid (query_string bad_query_request) = false
  /\ exists e,
       run_proxy up_hello "v1/models" bad_query_request [] = (Raise e, [])
       /\ exn_class_of e = UnicodeDecodeError.
Proof.
  split; [vm_compute; reflexivity|].
  exact (proxy_calls_upstream_once base Json.loads up_hello clock quote
           "v1/models" bad_query_request []).
Defined.

Lemma proxy_outcome_witness :
  exists b hs mt tr',
    run_proxy up_hello "v1/models" plain_request []
    = (Ok (Response b 200 hs mt), tr')
    /\ error_lines tr' = [].
Proof.
  destruct (proxy_outcome base Json.loads up_hello clock quote
              "v1/models" plain_request [])
    as (v & tr' & Hrun & Hout).
  - vm_compute; reflexivity.
  - unfold up_hello in Hout. cbn beta iota in Hout.
    destruct Hout as ((b & hs & mt & ->) & He).
    exists b, hs, mt, tr'. split; [exact Hrun | exact He].
Defined.
